(** * Obscurion QA automation: a shallow embedding of the three test suites

    The repository holds three Python scripts:

    - [artifacts/test-results/comprehensive_test_suite.py]: the HTTP API
      suite (class [TestSuite]), embedded in module [ApiSuite];
    - [artifacts/comprehensive_qa_test.py]: the synchronous browser suite,
      embedded in module [Selenium];
    - [artifacts/qa_test_playwright.py]: the asynchronous browser suite,
      embedded in module [Playwright].

    Conventions of the embedding.

    - Python code that mutates objects and may raise is written in the monad
      [M W A := W -> W * outcome A]: the world [W] is threaded through, and
      the world reached when an exception is raised is kept, as Python keeps
      the mutations made before a [raise].
    - The outside world (HTTP server, wall clock, browser) is an oracle
      stored in the world record; the scripts read it, never write it.
    - Standard output is not modelled.  Files written with [open(..., 'w')]
      are logged in the [disk] field; the writes themselves are taken to
      succeed.
    - Python floats holding wall-clock times are rationals ([Q]); Python
      strings are [string] (the payloads of the scripts are ASCII).
    - Only exceptions below Python's [Exception] class are modelled.
    - The browser suites keep a ghost [trace] of the functions entered.
      Their page-driving test functions ([test_signup], [test_dashboard],
      ...) consist of driver calls whose outcomes select the [log_test]
      calls made; each is modelled by the effects the browser makes it
      have on [test_results] and by what it returns or raises. *)

From Stdlib Require Import ZArith QArith List String Ascii Bool Lia Arith.
From Stdlib Require Import DecimalString DecimalNat Lqa.
Import ListNotations.
Close Scope Q_scope.
Open Scope list_scope.
Open Scope string_scope.

(* ===================================================================== *)
(** ** Python prelude *)
(* ===================================================================== *)

Module Py.

(** Exceptions (subclasses of [Exception]) with the text [str(e)] yields. *)
Inductive exn : Type :=
| ValueError (msg : string)
| TypeError (msg : string)
| ZeroDivisionError (msg : string)
| RequestException (msg : string)
| OtherException (msg : string).

Definition str_of_exn (e : exn) : string :=
  match e with
  | ValueError m | TypeError m | ZeroDivisionError m
  | RequestException m | OtherException m => m
  end.

Inductive outcome (A : Type) : Type :=
| Ret (a : A)
| Raise (e : exn).
Arguments Ret {A} a.
Arguments Raise {A} e.

Definition returns {A : Type} (o : outcome A) : bool :=
  match o with Ret _ => true | Raise _ => false end.

(** State and exceptions; the state survives a raise. *)
Definition M (W A : Type) : Type := W -> W * outcome A.

Section Monad.
Context {W : Type}.

Definition ret {A : Type} (a : A) : M W A := fun w => (w, Ret a).

Definition raise {A : Type} (e : exn) : M W A := fun w => (w, Raise e).

Definition bind {A B : Type} (m : M W A) (k : A -> M W B) : M W B :=
  fun w =>
    match m w with
    | (w', Ret a) => k a w'
    | (w', Raise e) => (w', Raise e)
    end.

Definition get : M W W := fun w => (w, Ret w).

Definition modify (f : W -> W) : M W unit := fun w => (f w, Ret tt).

(** [try: m  except <clause> as e: h e]; [h e = None] when no clause
    matches [e], which then keeps propagating. *)
Definition try_except {A : Type} (m : M W A) (h : exn -> option (M W A))
  : M W A :=
  fun w =>
    match m w with
    | (w', Ret a) => (w', Ret a)
    | (w', Raise e) =>
        match h e with
        | Some handler => handler w'
        | None => (w', Raise e)
        end
    end.

(** [try: m  finally: f].  An exception of [f] replaces that of [m]. *)
Definition try_finally {A : Type} (m : M W A) (f : M W unit) : M W A :=
  fun w =>
    match m w with
    | (w', r) =>
        match f w' with
        | (w'', Ret _) => (w'', r)
        | (w'', Raise e) => (w'', Raise e)
        end
    end.

(** [for x in xs: body x] *)
Fixpoint for_each {A : Type} (xs : list A) (body : A -> M W unit)
  : M W unit :=
  match xs with
  | [] => ret tt
  | x :: rest => bind (body x) (fun _ => for_each rest body)
  end.

(** A [for] loop that updates a local variable [acc]. *)
Fixpoint for_fold {A S : Type} (xs : list A) (acc : S)
  (body : A -> S -> M W S) : M W S :=
  match xs with
  | [] => ret acc
  | x :: rest => bind (body x acc) (fun acc' => for_fold rest acc' body)
  end.

(** A computation that touches no state. *)
Definition lift {A : Type} (o : outcome A) : M W A := fun w => (w, o).
End Monad.

Declare Scope py_scope.
Delimit Scope py_scope with py.
Notation "x <- m ;; k" := (bind m (fun x => k))
  (at level 61, m at next level, right associativity) : py_scope.
Notation "m ;; k" := (bind m (fun _ => k))
  (at level 61, right associativity) : py_scope.

(** The Python values the scripts test for truth. *)
Inductive pyval : Type :=
| PyNone
| PyBool (b : bool)
| PyInt (z : Z)
| PyStr (s : string).

Definition truthy (v : pyval) : bool :=
  match v with
  | PyNone => false
  | PyBool b => b
  | PyInt z => negb (z =? 0)%Z
  | PyStr s => negb (s =? "")
  end.

(** Parsed JSON documents.  An object keeps its members in document order;
    [json.loads] lets the last of several equal keys win. *)
#[warnings="-register-all"]
Inductive json : Type :=
| JNull
| JBool (b : bool)
| JNum (q : Q)
| JStr (s : string)
| JArr (items : list json)
| JObj (members : list (string * json)).

Fixpoint dict_get (k : string) (members : list (string * json))
  : option json :=
  match members with
  | [] => None
  | (k', v) :: rest =>
      match dict_get k rest with
      | Some v' => Some v'
      | None => if k' =? k then Some v else None
      end
  end.

(** *** Strings *)

Definition str_of_nat (n : nat) : string :=
  NilZero.string_of_uint (Nat.to_uint n).

Fixpoint replicate (n : nat) (c : ascii) : string :=
  match n with
  | O => ""
  | S k => String c (replicate k c)
  end.

(** [f"{n:03d}"] and friends: decimal, left-padded with zeros. *)
Definition zfill (width n : nat) : string :=
  let s := str_of_nat n in
  replicate (width - String.length s) "0"%char ++ s.

(** [s[:n]] *)
Definition take (n : nat) (s : string) : string := substring 0 n s.

(** [needle in hay] *)
Definition contains (needle hay : string) : bool :=
  match index 0 needle hay with
  | Some _ => true
  | None => false
  end.

(** [s.endswith(suffix)]: the reversed suffix starts the reversed string. *)
Fixpoint starts_with (p l : list ascii) : bool :=
  match p, l with
  | [], _ => true
  | _ :: _, [] => false
  | a :: p', b :: l' => (a =? b)%char && starts_with p' l'
  end.

Definition endswith (s suffix : string) : bool :=
  starts_with (rev (list_ascii_of_string suffix))
    (rev (list_ascii_of_string s)).

(** [c * n] for a one-character string [c]; the count is binary so that the
    10000-character query of the API suite stays a small term. *)
Definition str_mul (c : ascii) (n : N) : string :=
  N.iter n (String c) "".

(** [urllib.parse.quote] with its default [safe='/'], on ASCII input. *)
Definition hex_digit (n : nat) : ascii :=
  nth n ["0"; "1"; "2"; "3"; "4"; "5"; "6"; "7"; "8"; "9";
         "A"; "B"; "C"; "D"; "E"; "F"]%char "0"%char.

Definition always_safe (c : ascii) : bool :=
  let n := nat_of_ascii c in
  (((65 <=? n) && (n <=? 90)) || ((97 <=? n) && (n <=? 122))
   || ((48 <=? n) && (n <=? 57))
   || (n =? 95) || (n =? 46) || (n =? 45) || (n =? 126))%nat.

Fixpoint quote (s : string) : string :=
  match s with
  | EmptyString => ""
  | String c rest =>
      if always_safe c || (c =? "/")%char then String c (quote rest)
      else
        let n := nat_of_ascii c in
        String "%" (String (hex_digit (n / 16))
                      (String (hex_digit (n mod 16)) (quote rest)))
  end.

(** *** Arithmetic *)

(** [a / b] on numbers: true division, raising on a zero divisor. *)
Definition truediv (a b : Q) : outcome Q :=
  if Qeq_bool b 0%Q then Raise (ZeroDivisionError "division by zero")
  else Ret (a / b)%Q.

(** [sum(xs)] *)
Definition sum (xs : list Q) : Q := fold_left Qplus xs 0%Q.

(** *** Files *)

Inductive report_format : Type := JSON | HTML | Markdown.

Definition report_format_eqb (a b : report_format) : bool :=
  match a, b with
  | JSON, JSON | HTML, HTML | Markdown, Markdown => true
  | _, _ => false
  end.

(** The format of a written file, read off its name. *)
Definition format_of_path (path : string) : option report_format :=
  if endswith path ".json" then Some JSON
  else if endswith path ".html" then Some HTML
  else if endswith path ".md" then Some Markdown
  else None.

(** The formats among a list of written files, and whether one of them has
    format [fmt]. *)
Definition formats {C : Type} (files : list (string * C))
  : list (option report_format) :=
  map (fun f => format_of_path (fst f)) files.

Definition emits {C : Type} (fmt : report_format)
  (files : list (string * C)) : bool :=
  existsb (fun f => match format_of_path (fst f) with
                    | Some fmt' => report_format_eqb fmt fmt'
                    | None => false
                    end) files.

(** *** Processes *)

(** How a script ends: [sys.exit(code)] or falling off its end (status 0),
    or an exception nobody caught, for which the interpreter prints a
    traceback and exits with status 1. *)
Inductive termination : Type :=
| Exit (code : Z)
| Uncaught (e : exn).

Definition exit_status (t : termination) : Z :=
  match t with
  | Exit code => code
  | Uncaught _ => 1%Z
  end.

(** [s.lower()] on ASCII. *)
Definition lower_char (c : ascii) : ascii :=
  let n := nat_of_ascii c in
  if ((65 <=? n) && (n <=? 90))%nat then ascii_of_nat (n + 32) else c.

Fixpoint lower (s : string) : string :=
  match s with
  | EmptyString => ""
  | String c rest => String (lower_char c) (lower rest)
  end.

(** The user journeys the specification lists for the browser suites. *)
Inductive journey : Type :=
| Signup
| Signin
| DashboardNavigation
| NoteCreation
| FlashcardCRUD
| VersionHistory
| ResponsiveLayout
| AccessibilityAudit.

Definition journey_eqb (a b : journey) : bool :=
  match a, b with
  | Signup, Signup | Signin, Signin
  | DashboardNavigation, DashboardNavigation
  | NoteCreation, NoteCreation | FlashcardCRUD, FlashcardCRUD
  | VersionHistory, VersionHistory | ResponsiveLayout, ResponsiveLayout
  | AccessibilityAudit, AccessibilityAudit => true
  | _, _ => false
  end.

Definition all_journeys : list journey :=
  [Signup; Signin; DashboardNavigation; NoteCreation; FlashcardCRUD;
   VersionHistory; ResponsiveLayout; AccessibilityAudit].

(** The three literals every [log_test] call site of the browser suites
    passes as [status]. *)
Inductive status_literal : Type := PASS | FAIL | WARN.

Definition status_str (l : status_literal) : string :=
  match l with
  | PASS => "PASS"
  | FAIL => "FAIL"
  | WARN => "WARN"
  end.

End Py.

(* ===================================================================== *)
(** ** The HTTP API suite: [comprehensive_test_suite.py] *)
(* ===================================================================== *)

Module ApiSuite.
Import Py.
Local Open Scope py_scope.

Definition BASE_URL : string := "http://localhost:3082".
Definition OUTPUT_DIR : string :=
  "/home/metrik/docker/Obscurion/artifacts/test-results".

(** [class TestResult] *)
Module TestResult.
Record t : Type := mk {
  test_num : nat;
  name : string;
  description : string;
  url : string;
  expected_status : Z;
  actual_status : Z;
  response_body : string;
  time_ms : Q;
  passed : bool;
  notes : string
}.
End TestResult.

(** The attributes [TestSuite.__init__] sets. *)
Record TestSuite : Type := mkTestSuite {
  test_num : nat;
  pass_count : nat;
  fail_count : nat;
  results : list TestResult.t;
  timestamp : string
}.

Definition TestSuite_init (now : string) : TestSuite :=
  {| test_num := 0; pass_count := 0; fail_count := 0; results := [];
     timestamp := now |}.

(** What a [requests] call hands back: a response object, or a
    [requests.exceptions.RequestException]. *)
Record response : Type := mkResponse {
  status_code : Z;
  text : string;
  json_of : outcome json   (* [response.json()] *)
}.

Inductive reply : Type :=
| Response (r : response)
| RequestFailure (msg : string).

(** One row of the Markdown table. *)
Record md_row : Type := mkRow {
  row_num : nat;
  row_name : string;
  row_passed : bool;
  row_time_ms : Q;
  row_expected : Z;
  row_actual : Z;
  row_notes : string
}.

(** What the suite writes to a file. *)
Inductive content : Type :=
| TestRecord (r : TestResult.t)
    (* the per-test [json.dump] of [run_test] *)
| ReportJson (stamp : string) (total passed failed : nat) (success_rate : Q)
    (rows : list TestResult.t)
    (* the report dict of [generate_report]; each row carries
       [response_body[:200]] *)
| ReportMarkdown (total passed failed : nat) (success_rate : Q)
    (all_passed : bool) (rows : list md_row).

Record World : Type := mkWorld {
  self : TestSuite;
  clock : nat -> Q;              (* successive readings of [time.time()] *)
  ticks : nat;                   (* readings taken so far *)
  net : nat -> reply;            (* the server's answer to the k-th request *)
  sent : list (string * string); (* requests issued: method and URL *)
  disk : list (string * content) (* files written: path and content *)
}.

Definition set_self (f : TestSuite -> TestSuite) (w : World) : World :=
  {| self := f (self w); clock := clock w; ticks := ticks w; net := net w;
     sent := sent w; disk := disk w |}.

(** [time.time()] *)
Definition time_time : M World Q :=
  fun w =>
    ({| self := self w; clock := clock w; ticks := S (ticks w);
        net := net w; sent := sent w; disk := disk w |},
     Ret (clock w (ticks w))).

(** [requests.get], [requests.post], [requests.options] *)
Definition request (method url : string) : M World response :=
  fun w =>
    let w' := {| self := self w; clock := clock w; ticks := ticks w;
                 net := net w; sent := (sent w ++ [(method, url)])%list;
                 disk := disk w |} in
    match net w (List.length (sent w)) with
    | Response r => (w', Ret r)
    | RequestFailure msg => (w', Raise (RequestException msg))
    end.

Definition requests_get (url : string) : M World response :=
  request "GET" url.
Definition requests_post (url : string) (data : option json)
  : M World response := request "POST" url.
Definition requests_options (url : string) : M World response :=
  request "OPTIONS" url.

(** [with open(path, 'w') as f: ...] *)
Definition write_file (path : string) (c : content) : M World unit :=
  modify (fun w =>
    {| self := self w; clock := clock w; ticks := ticks w; net := net w;
       sent := sent w; disk := (disk w ++ [(path, c)])%list |}).

(** The arguments of one [run_test] call. *)
Record call : Type := mkCall {
  name : string;
  url : string;
  expected_status : Z;
  description : string;
  auth_required : bool;
  method : string;
  data : option json;
  check_response : option (json -> outcome pyval)
}.

(** A call that leaves the keyword arguments at their defaults. *)
Definition call_default (name url : string) (expected_status : Z)
  (description : string) : call :=
  {| name := name; url := url; expected_status := expected_status;
     description := description; auth_required := true; method := "GET";
     data := None; check_response := None |}.

(** The block under "Additional response validation": [response.json()],
    then the validator, inside [try ... except Exception]. *)
Definition validate (check : json -> outcome pyval) (r : response)
  : bool * string :=
  let validation_result :=
    match json_of r with
    | Ret response_json => check response_json
    | Raise e => Raise e
    end in
  match validation_result with
  | Ret v =>
      if negb (truthy v) then (false, "Response validation failed")
      else (true, match v with
                  | PyStr s => s
                  | _ => "Validation passed"
                  end)
  | Raise e => (false, "Validation error: " ++ str_of_exn e)
  end.

(** The lines of [run_test] from "Check status code" to "Record result":
    the status comparison, then the optional validation. *)
Definition judge (c : call) (actual_status : Z) (resp : option response)
  : bool * string :=
  let passed := (actual_status =? expected_status c)%Z in
  match check_response c with
  | Some check =>
      if passed && (actual_status =? 200)%Z then
        match resp with
        | Some r => validate check r
        | None => (false, "Validation error: name 'response' is not defined")
        end
      else (passed, "")
  | None => (passed, "")
  end.

(** [TestSuite.run_test] *)
Definition run_test (c : call) : M World TestResult.t :=
  modify (set_self (fun s =>
    {| test_num := S (test_num s); pass_count := pass_count s;
       fail_count := fail_count s; results := results s;
       timestamp := timestamp s |})) ;;
  start_time <- time_time ;;
  attempt <-
    try_except
      (resp <-
         (if method c =? "GET" then requests_get (url c)
          else if method c =? "POST" then requests_post (url c) (data c)
          else if method c =? "OPTIONS" then requests_options (url c)
          else raise (ValueError ("Unsupported method: " ++ method c))) ;;
       t <- time_time ;;
       ret (((t - start_time) * 1000)%Q, status_code resp,
            take 500 (text resp), Some resp))
      (fun e =>
         match e with
         | RequestException msg =>
             Some (t <- time_time ;;
                   ret (((t - start_time) * 1000)%Q, 0%Z, msg, None))
         | _ => None
         end) ;;
  let '(elapsed_ms, actual_status, response_body, resp) := attempt in
  let '(passed, notes) := judge c actual_status resp in
  w <- get ;;
  let result :=
    TestResult.mk (test_num (self w)) (name c) (description c) (url c)
      (expected_status c) actual_status response_body elapsed_ms passed
      notes in
  modify (set_self (fun s =>
    {| test_num := test_num s; pass_count := pass_count s;
       fail_count := fail_count s; results := (results s ++ [result])%list;
       timestamp := timestamp s |})) ;;
  modify (set_self (fun s =>
    if passed then
      {| test_num := test_num s; pass_count := S (pass_count s);
         fail_count := fail_count s; results := results s;
         timestamp := timestamp s |}
    else
      {| test_num := test_num s; pass_count := pass_count s;
         fail_count := S (fail_count s); results := results s;
         timestamp := timestamp s |})) ;;
  write_file
    (OUTPUT_DIR ++ "/test-" ++ zfill 3 (test_num (self w)) ++ "-"
       ++ (if passed then "pass" else "fail") ++ ".json")
    (TestRecord result) ;;
  ret result.

(** The validator of the health check:
    [lambda r: 'status' in r and r['status'] == 'healthy'] *)
Definition health_check (r : json) : outcome pyval :=
  match r with
  | JObj members =>
      match dict_get "status" members with
      | Some (JStr s) => Ret (PyBool (s =? "healthy"))
      | Some _ => Ret (PyBool false)
      | None => Ret (PyBool false)
      end
  | JArr items =>
      if existsb (fun x => match x with
                           | JStr s => s =? "status"
                           | _ => false
                           end) items
      then Raise (TypeError "list indices must be integers or slices, not str")
      else Ret (PyBool false)
  | JStr s =>
      if contains "status" s
      then Raise (TypeError "string indices must be integers, not 'str'")
      else Ret (PyBool false)
  | JNull | JBool _ | JNum _ =>
      Raise (TypeError "argument is not iterable")
  end.

(** The calls of [run_api_tests], in source order. *)
Definition api_tests : list call :=
  [ {| name := "Health Check";
       url := BASE_URL ++ "/api/health";
       expected_status := 200;
       description := "Verify API is running and healthy";
       auth_required := false; method := "GET"; data := None;
       check_response := Some health_check |};
    call_default "Search - Basic query"
      (BASE_URL ++ "/api/search?q=test") 401
      "Search with query parameter only (unauthenticated)";
    call_default "Search - Status filter"
      (BASE_URL ++ "/api/search?status=ACTIVE") 401
      "Filter by ACTIVE status (unauthenticated)";
    call_default "Search - Multiple tags"
      (BASE_URL ++ "/api/search?tags=javascript,react") 401
      "Filter by multiple tags (unauthenticated)";
    call_default "Search - Pinned filter"
      (BASE_URL ++ "/api/search?pinned=true") 401
      "Filter by pinned notes only (unauthenticated)";
    call_default "Search - Combined filters"
      (BASE_URL
         ++ "/api/search?q=test&status=ACTIVE&tags=javascript&pinned=true")
      401 "Search with all filters combined (unauthenticated)";
    call_default "Search - Empty query with filters"
      (BASE_URL ++ "/api/search?status=ACTIVE") 401
      "Filter without search query (Phase 2 feature)";
    call_default "Search - Pagination"
      (BASE_URL ++ "/api/search?q=test&page=1&limit=20") 401
      "Search with pagination parameters";
    call_default "Search - Invalid pagination limit"
      (BASE_URL ++ "/api/search?limit=1000") 401
      "Search with limit exceeding maximum (should cap at 100)";
    call_default "Search - Negative pagination"
      (BASE_URL ++ "/api/search?page=-1&limit=-10") 401
      "Negative pagination values (should default to valid values)";
    call_default "Search - Zero pagination"
      (BASE_URL ++ "/api/search?page=0&limit=0") 401
      "Zero pagination values (should default to valid values)";
    call_default "Search - Invalid status"
      (BASE_URL ++ "/api/search?status=INVALID") 401
      "Invalid status value (should be ignored or rejected)";
    call_default "Search - Multiple status filters"
      (BASE_URL ++ "/api/search?status=ACTIVE&status=DRAFT") 401
      "Multiple status parameters (last one should win)";
    call_default "Filters - Get available filters"
      (BASE_URL ++ "/api/filters") 401
      "Retrieve available filter options (unauthenticated)";
    call_default "Search - Very long query"
      (BASE_URL ++ "/api/search?q=" ++ str_mul "a" 10000) 401
      "10000 character query (should truncate or handle gracefully)";
    call_default "Search - Empty query"
      (BASE_URL ++ "/api/search?q=") 401
      "Empty query parameter (should return empty or filtered results)";
    call_default "Search - Malformed encoding"
      (BASE_URL ++ "/api/search?q=%ZZ%YY") 401
      "Malformed URL encoding (should handle gracefully)" ].

(** [TestSuite.run_api_tests] *)
Definition run_api_tests : M World unit :=
  for_each api_tests (fun c => run_test c ;; ret tt).

Definition sql_injections : list (string * string) :=
  [ ("' OR '1'='1", "Basic SQL injection");
    ("'; DROP TABLE Note; --", "SQL drop table attempt");
    ("' OR '1'='1' --", "Comment-based SQL injection");
    ("1' AND 1=1 --", "Numeric SQL injection");
    ("admin'--", "Admin bypass attempt") ].

Definition xss_payloads : list (string * string) :=
  [ ("<script>alert('xss')</script>", "Basic script tag");
    ("<img src=x onerror='alert(1)'>", "Image onerror handler");
    ("<svg onload=alert('xss')>", "SVG onload handler");
    ("javascript:alert('xss')", "JavaScript protocol");
    ("<iframe src='javascript:alert(1)'>", "Iframe injection") ].

Definition edge_cases : list (string * string) :=
  [ ("@#$%^&*()", "Special characters");
    ("../../../../etc/passwd", "Path traversal attempt");
    ("${7*7}", "Expression injection");
    ("{{7*7}}", "Template injection");
    ("%00", "Null byte injection") ].

(** The call each of the three loops of [run_security_tests] makes. *)
Definition security_call (title intro : string) (item : string * string)
  : call :=
  let '(payload, desc) := item in
  let encoded := quote payload in
  {| name := title ++ desc;
     url := BASE_URL ++ "/api/search?q=" ++ encoded;
     expected_status := 401;
     description := intro ++ payload;
     auth_required := true; method := "GET"; data := None;
     check_response := None |}.

Definition security_tests : list call :=
  (map (security_call "SQL Injection: " "Test SQL injection with payload: ")
     sql_injections
   ++ map (security_call "XSS Prevention: "
             "Test XSS prevention with payload: ") xss_payloads
   ++ map (security_call "Edge Case: " "Test edge case handling: ")
        edge_cases)%list.

(** [TestSuite.run_security_tests] *)
Definition run_security_tests : M World unit :=
  for_each sql_injections (fun item =>
    run_test (security_call "SQL Injection: "
                "Test SQL injection with payload: " item) ;; ret tt) ;;
  for_each xss_payloads (fun item =>
    run_test (security_call "XSS Prevention: "
                "Test XSS prevention with payload: " item) ;; ret tt) ;;
  for_each edge_cases (fun item =>
    run_test (security_call "Edge Case: "
                "Test edge case handling: " item) ;; ret tt).

Definition Q_of_nat (n : nat) : Q := inject_Z (Z.of_nat n).

(** [sum(times) / len(times) if times else 0] *)
Definition average (times : list Q) : outcome Q :=
  match times with
  | [] => Ret 0%Q
  | _ :: _ => truediv (sum times) (Q_of_nat (List.length times))
  end.

(** The request loop of [run_performance_tests]: the samples collected. *)
Definition sample_requests : M World (list Q) :=
  for_fold (seq 0 10) [] (fun i times =>
    req_start <- time_time ;;
    try_except
      (requests_get (BASE_URL ++ "/api/search?q=test" ++ str_of_nat i) ;;
       t <- time_time ;;
       ret (times ++ [((t - req_start) * 1000)%Q])%list)
      (fun _ => Some (ret times))).

Definition bump_pass (s : TestSuite) : TestSuite :=
  {| test_num := test_num s; pass_count := S (pass_count s);
     fail_count := fail_count s; results := results s;
     timestamp := timestamp s |}.

Definition bump_fail (s : TestSuite) : TestSuite :=
  {| test_num := test_num s; pass_count := pass_count s;
     fail_count := S (fail_count s); results := results s;
     timestamp := timestamp s |}.

(** [TestSuite.run_performance_tests].  The three [print] lines after the
    loop format [total_time], [avg_time] and [10 / (total_time / 1000)];
    the last one divides, so it is kept. *)
Definition run_performance_tests : M World unit :=
  start_time <- time_time ;;
  times <- sample_requests ;;
  t <- time_time ;;
  let total_time := ((t - start_time) * 1000)%Q in
  avg_time <- lift (average times) ;;
  seconds <- lift (truediv total_time 1000%Q) ;;
  lift (truediv 10%Q seconds) ;;
  if Qlt_le_dec avg_time 100%Q then modify (set_self bump_pass)
  else if Qlt_le_dec avg_time 1000%Q then modify (set_self bump_pass)
  else modify (set_self bump_fail).

(** The ratio printed and stored by both report functions. *)
Definition success_rate (s : TestSuite) : outcome Q :=
  if (0 <? pass_count s + fail_count s)%nat then
    match truediv (Q_of_nat (pass_count s))
            (Q_of_nat (pass_count s + fail_count s)) with
    | Ret q => Ret (q * 100)%Q
    | Raise e => Raise e
    end
  else Ret 0%Q.

Definition snippet (r : TestResult.t) : TestResult.t :=
  TestResult.mk (TestResult.test_num r) (TestResult.name r)
    (TestResult.description r) (TestResult.url r)
    (TestResult.expected_status r) (TestResult.actual_status r)
    (take 200 (TestResult.response_body r)) (TestResult.time_ms r)
    (TestResult.passed r) (TestResult.notes r).

Definition row_of (r : TestResult.t) : md_row :=
  {| row_num := TestResult.test_num r; row_name := TestResult.name r;
     row_passed := TestResult.passed r; row_time_ms := TestResult.time_ms r;
     row_expected := TestResult.expected_status r;
     row_actual := TestResult.actual_status r;
     row_notes := TestResult.notes r |}.

(** [TestSuite.generate_markdown_report] *)
Definition generate_markdown_report : M World unit :=
  w <- get ;;
  let s := self w in
  let md_file :=
    OUTPUT_DIR ++ "/api-test-report-" ++ timestamp s ++ ".md" in
  rate <- lift (success_rate s) ;;
  write_file md_file
    (ReportMarkdown (pass_count s + fail_count s) (pass_count s)
       (fail_count s) rate (fail_count s =? 0)%nat
       (map row_of (results s))).

(** [TestSuite.generate_report] *)
Definition generate_report : M World bool :=
  w <- get ;;
  let s := self w in
  rate <- lift (success_rate s) ;;
  let report_file :=
    OUTPUT_DIR ++ "/api-test-report-" ++ timestamp s ++ ".json" in
  write_file report_file
    (ReportJson (timestamp s) (pass_count s + fail_count s) (pass_count s)
       (fail_count s) rate (map snippet (results s))) ;;
  generate_markdown_report ;;
  ret (fail_count s =? 0)%nat.

(** The world in which [main] builds [suite = TestSuite()]. *)
Definition fresh (now : string) (clock : nat -> Q) (net : nat -> reply)
  : World :=
  {| self := TestSuite_init now; clock := clock; ticks := 0; net := net;
     sent := []; disk := [] |}.

(** The last two statements of [main]:
    [success = suite.generate_report(); sys.exit(0 if success else 1)]. *)
Definition report_and_exit (w : World) : World * termination :=
  match generate_report w with
  | (w', Ret success) => (w', Exit (if success then 0 else 1)%Z)
  | (w', Raise e) => (w', Uncaught e)
  end.

(** [main] *)
Definition main (w : World) : World * termination :=
  match (run_api_tests ;; run_security_tests ;; run_performance_tests) w with
  | (w', Ret _) => report_and_exit w'
  | (w', Raise e) => (w', Uncaught e)
  end.

(** The files a computation adds to the disk. *)
Definition written (before after : World) : list (string * content) :=
  skipn (List.length (disk before)) (disk after).

End ApiSuite.

(* ===================================================================== *)
(** ** The synchronous browser suite: [comprehensive_qa_test.py] *)
(* ===================================================================== *)

Module Selenium.
Import Py.
Local Open Scope py_scope.

Definition BASE_URL : string := "http://localhost:3082".
Definition ARTIFACTS_DIR : string := "/home/metrik/docker/Obscurion/artifacts".

Record viewport : Type := mkViewport {
  vp_name : string;
  width : nat;
  height : nat
}.

Definition VIEWPORTS : list viewport :=
  [ mkViewport "mobile_small" 360 740;
    mkViewport "mobile_large" 390 844;
    mkViewport "tablet" 768 1024;
    mkViewport "desktop_small" 1280 800;
    mkViewport "desktop_medium" 1920 1080;
    mkViewport "desktop_large" 2560 1440 ].

(** [test_results["summary"]]; [verdict] is the key [generate_report] adds. *)
Module Summary.
Record t : Type := mk {
  timestamp : string;
  base_url : string;
  test_user : string;
  total_tests : nat;
  passed : nat;
  failed : nat;
  warnings : nat;
  verdict : option string
}.
End Summary.

(** One element of [test_results["tests"]]. *)
Module Entry.
Record t : Type := mk {
  name : string;
  status : string;
  details : string;
  evidence : string;
  timestamp : string
}.
End Entry.

(** One element of [test_results["accessibility"]]; [violations] keeps the
    [impact] of each violation axe reported. *)
Module A11y.
Record t : Type := mk {
  page : string;
  viewport : string;
  critical : nat;
  serious : nat;
  moderate : nat;
  minor : nat;
  violations : list string
}.
End A11y.

(** The module-level dict [test_results]. *)
Record results : Type := mkResults {
  summary : Summary.t;
  tests : list Entry.t;
  accessibility : list A11y.t;
  screenshots : list string;
  console_errors : list (string * list string)
}.

(** The functions of the script whose calls the ghost [trace] records. *)
Module Fn.
Inductive t : Type :=
| test_health_check
| test_protected_routes
| test_signup
| test_signin
| test_dashboard
| test_create_note
| test_flashcard_creation
| test_version_history
| test_notes_list
| test_search_page
| test_responsive_design
| run_accessibility_check
| generate_report.
End Fn.

(** What a page-driving test function does to [test_results], as the
    browser makes it: the function bodies consist of driver calls whose
    outcomes pick which [log_test] calls run. *)
Inductive effect : Type :=
| Log (name : string) (status : status_literal) (details evidence : string)
| Screenshot (path : string)
| Audit (entry : A11y.t)
| ConsoleErrors (page : string) (errors : list string).

Record behaviour : Type := mkBehaviour {
  effects : list effect;
  result : outcome pyval
}.

(** The document [generate_report] renders into [qa-report.html]. *)
Record html_report : Type := mkHtml {
  verdict_class : string;
  verdict_text : string;
  stat_total : nat;
  stat_passed : nat;
  stat_warnings : nat;
  stat_failed : nat;
  items : list (string * string * string * string);
    (* name, details, status class, status *)
  total_critical : nat;
  total_serious : nat;
  total_moderate : nat;
  total_minor : nat;
  n_screenshots : nat;
  n_console_errors : nat;
  n_accessibility : nat
}.

Inductive content : Type :=
| QaJson (r : results)            (* [json.dump(test_results, f)] *)
| QaHtml (doc : html_report)
| AxeJson (impacts : list string) (* [json.dump(results, f)] of an audit *).

(** The browser, the application under test and the clock. *)
Record oracle : Type := mkOracle {
  epoch : N;
    (* [int(time.time())] when the module is loaded *)
  now : nat -> string;
    (* the k-th [datetime.now().isoformat()] *)
  health : outcome Z;
    (* [requests.get(BASE_URL/api/health).status_code] *)
  driver_starts : nat -> outcome unit;
    (* the k-th [setup_driver(...)] *)
  driver_quits : nat -> outcome unit;
    (* the k-th [driver.quit()] *)
  unauth_visit : outcome string;
    (* [driver.get(BASE_URL/dashboard)] then [driver.current_url], without
       a session *)
  save_screenshot : string -> string -> outcome string;
    (* [driver.save_screenshot]: the path of the file for a name and a
       viewport label *)
  axe : string -> string -> outcome (list string);
    (* [Axe(driver)], [inject()], [run()]: the impacts of the violations
       on a page at a viewport *)
  responsive_load : viewport -> outcome unit;
    (* the sign-in and the dashboard load of [test_responsive_design] *)
  hamburger : viewport -> outcome unit;
    (* [driver.find_element] for the mobile menu button *)
  phase : Fn.t -> behaviour
    (* the page-driving test functions *)
}.

Record World : Type := mkWorld {
  test_results : results;
  disk : list (string * content);
  trace : list Fn.t;      (* ghost: functions entered, oldest first *)
  reads : nat;            (* clock readings taken *)
  started : nat;          (* [setup_driver] calls made *)
  quits : nat;            (* [driver.quit()] calls made *)
  env : oracle
}.

Definition TEST_USER_EMAIL (o : oracle) : string :=
  "qatest_" ++ NilZero.string_of_uint (N.to_uint (epoch o))
    ++ "@example.com".

(** The world once the module-level statements have run. *)
Definition loaded (o : oracle) : World :=
  {| test_results :=
       {| summary := Summary.mk (now o 0) BASE_URL (TEST_USER_EMAIL o)
                       0 0 0 0 None;
          tests := []; accessibility := []; screenshots := [];
          console_errors := [] |};
     disk := []; trace := []; reads := 1; started := 0; quits := 0;
     env := o |}.

Definition with_results (f : results -> results) (w : World) : World :=
  {| test_results := f (test_results w); disk := disk w; trace := trace w;
     reads := reads w; started := started w; quits := quits w;
     env := env w |}.

Definition with_summary (f : Summary.t -> Summary.t) (r : results)
  : results :=
  {| summary := f (summary r); tests := tests r;
     accessibility := accessibility r; screenshots := screenshots r;
     console_errors := console_errors r |}.

Definition enter (f : Fn.t) : M World unit :=
  modify (fun w =>
    {| test_results := test_results w; disk := disk w;
       trace := List.app (trace w) [f]; reads := reads w;
       started := started w; quits := quits w; env := env w |}).

Definition write_file (path : string) (c : content) : M World unit :=
  modify (fun w =>
    {| test_results := test_results w;
       disk := List.app (disk w) [(path, c)]; trace := trace w;
       reads := reads w; started := started w; quits := quits w;
       env := env w |}).

(** [datetime.now().isoformat()] *)
Definition datetime_now : M World string :=
  fun w =>
    ({| test_results := test_results w; disk := disk w; trace := trace w;
        reads := S (reads w); started := started w; quits := quits w;
        env := env w |},
     Ret (now (env w) (reads w))).

Definition bump_total (s : Summary.t) : Summary.t :=
  Summary.mk (Summary.timestamp s) (Summary.base_url s)
    (Summary.test_user s) (S (Summary.total_tests s)) (Summary.passed s)
    (Summary.failed s) (Summary.warnings s) (Summary.verdict s).

Definition bump_passed (s : Summary.t) : Summary.t :=
  Summary.mk (Summary.timestamp s) (Summary.base_url s)
    (Summary.test_user s) (Summary.total_tests s) (S (Summary.passed s))
    (Summary.failed s) (Summary.warnings s) (Summary.verdict s).

Definition bump_failed (s : Summary.t) : Summary.t :=
  Summary.mk (Summary.timestamp s) (Summary.base_url s)
    (Summary.test_user s) (Summary.total_tests s) (Summary.passed s)
    (S (Summary.failed s)) (Summary.warnings s) (Summary.verdict s).

Definition bump_warnings (s : Summary.t) : Summary.t :=
  Summary.mk (Summary.timestamp s) (Summary.base_url s)
    (Summary.test_user s) (Summary.total_tests s) (Summary.passed s)
    (Summary.failed s) (S (Summary.warnings s)) (Summary.verdict s).

Definition append_test (e : Entry.t) (r : results) : results :=
  {| summary := summary r; tests := List.app (tests r) [e];
     accessibility := accessibility r; screenshots := screenshots r;
     console_errors := console_errors r |}.

(** [log_test] *)
Definition log_test (name status details evidence : string)
  : M World unit :=
  stamp <- datetime_now ;;
  modify (with_results
            (append_test (Entry.mk name status details evidence stamp))) ;;
  modify (with_results (with_summary bump_total)) ;;
  if status =? "PASS" then modify (with_results (with_summary bump_passed))
  else if status =? "FAIL" then
    modify (with_results (with_summary bump_failed))
  else if status =? "WARN" then
    modify (with_results (with_summary bump_warnings))
  else ret tt.

(** [setup_driver] *)
Definition setup_driver : M World unit :=
  fun w =>
    ({| test_results := test_results w; disk := disk w; trace := trace w;
        reads := reads w; started := S (started w); quits := quits w;
        env := env w |},
     driver_starts (env w) (started w)).

(** [driver.quit()] *)
Definition driver_quit : M World unit :=
  fun w =>
    ({| test_results := test_results w; disk := disk w; trace := trace w;
        reads := reads w; started := started w; quits := S (quits w);
        env := env w |},
     driver_quits (env w) (quits w)).

(** [take_screenshot] *)
Definition take_screenshot (name viewport : string) : M World string :=
  w <- get ;;
  filepath <- lift (save_screenshot (env w) name viewport) ;;
  modify (with_results (fun r =>
    {| summary := summary r; tests := tests r;
       accessibility := accessibility r;
       screenshots := List.app (screenshots r) [filepath];
       console_errors := console_errors r |})) ;;
  ret filepath.

Definition count_impact (impact : string) (violations : list string) : nat :=
  List.length (filter (String.eqb impact) violations).

(** [run_accessibility_check] *)
Definition run_accessibility_check (page_name viewport : string)
  : M World unit :=
  enter Fn.run_accessibility_check ;;
  try_except
    (w <- get ;;
     violations <- lift (axe (env w) page_name viewport) ;;
     let critical := count_impact "critical" violations in
     let serious := count_impact "serious" violations in
     let moderate := count_impact "moderate" violations in
     let minor := count_impact "minor" violations in
     modify (with_results (fun r =>
       {| summary := summary r; tests := tests r;
          accessibility :=
            List.app (accessibility r)
              [A11y.mk page_name viewport critical serious moderate minor
                 violations];
          screenshots := screenshots r;
          console_errors := console_errors r |})) ;;
     (if (0 <? critical + serious)%nat then
        log_test
          ("Accessibility check on " ++ page_name ++ " (" ++ viewport ++ ")")
          "FAIL"
          ("Critical: " ++ str_of_nat critical ++ ", Serious: "
             ++ str_of_nat serious ++ ", Moderate: " ++ str_of_nat moderate
             ++ ", Minor: " ++ str_of_nat minor)
          ("artifacts/a11y-" ++ page_name ++ "-" ++ viewport ++ ".json")
      else if (0 <? moderate)%nat then
        log_test
          ("Accessibility check on " ++ page_name ++ " (" ++ viewport ++ ")")
          "WARN"
          ("Moderate: " ++ str_of_nat moderate ++ ", Minor: "
             ++ str_of_nat minor) ""
      else
        log_test
          ("Accessibility check on " ++ page_name ++ " (" ++ viewport ++ ")")
          "PASS" ("Minor: " ++ str_of_nat minor) "") ;;
     write_file
       (ARTIFACTS_DIR ++ "/a11y/" ++ page_name ++ "_" ++ viewport ++ ".json")
       (AxeJson violations))
    (fun e =>
       Some (log_test
               ("Accessibility check on " ++ page_name ++ " (" ++ viewport
                  ++ ")")
               "WARN"
               ("Could not run accessibility check: " ++ str_of_exn e) "")).

(** [test_health_check] *)
Definition test_health_check : M World unit :=
  enter Fn.test_health_check ;;
  try_except
    (w <- get ;;
     code <- lift (health (env w)) ;;
     if (code =? 200)%Z then
       log_test "API Health Check" "PASS" "Health endpoint responding" ""
     else
       log_test "API Health Check" "FAIL"
         ("Status code: " ++ DecimalString.NilZero.string_of_int
                                (Z.to_int code)) "")
    (fun e =>
       Some (log_test "API Health Check" "FAIL"
               ("Health endpoint unreachable: " ++ str_of_exn e) "")).

(** [test_protected_routes]: the driver is set up before the [try]. *)
Definition test_protected_routes : M World unit :=
  enter Fn.test_protected_routes ;;
  setup_driver ;;
  try_finally
    (try_except
       (w <- get ;;
        current_url <- lift (unauth_visit (env w)) ;;
        if contains "/auth/signin" current_url then
          log_test "Protected route redirect" "PASS"
            "Dashboard redirects to signin when unauthenticated" ""
        else
          log_test "Protected route redirect" "FAIL"
            ("Dashboard accessible without auth: " ++ current_url) "")
       (fun e =>
          Some (log_test "Protected route redirect" "FAIL"
                  ("Exception: " ++ str_of_exn e) "")))
    driver_quit.

Definition apply_effect (e : effect) : M World unit :=
  match e with
  | Log name status details evidence =>
      log_test name (status_str status) details evidence
  | Screenshot path =>
      modify (with_results (fun r =>
        {| summary := summary r; tests := tests r;
           accessibility := accessibility r;
           screenshots := List.app (screenshots r) [path];
           console_errors := console_errors r |}))
  | Audit entry =>
      modify (with_results (fun r =>
        {| summary := summary r; tests := tests r;
           accessibility := List.app (accessibility r) [entry];
           screenshots := screenshots r;
           console_errors := console_errors r |}))
  | ConsoleErrors page errors =>
      modify (with_results (fun r =>
        {| summary := summary r; tests := tests r;
           accessibility := accessibility r; screenshots := screenshots r;
           console_errors :=
             List.app (console_errors r) [(page, errors)] |}))
  end.

(** A page-driving test function: [test_signup], [test_signin],
    [test_dashboard], [test_create_note], [test_flashcard_creation],
    [test_version_history], [test_notes_list], [test_search_page]. *)
Definition drive (f : Fn.t) : M World pyval :=
  enter f ;;
  w <- get ;;
  for_each (effects (phase (env w) f)) apply_effect ;;
  lift (result (phase (env w) f)).

Definition test_signup : M World pyval := drive Fn.test_signup.
Definition test_signin : M World pyval := drive Fn.test_signin.
Definition test_dashboard : M World pyval := drive Fn.test_dashboard.
Definition test_create_note : M World pyval := drive Fn.test_create_note.
Definition test_flashcard_creation (note_id : pyval) : M World pyval :=
  drive Fn.test_flashcard_creation.
Definition test_version_history (note_id : pyval) : M World pyval :=
  drive Fn.test_version_history.
Definition test_notes_list : M World pyval := drive Fn.test_notes_list.
Definition test_search_page : M World pyval := drive Fn.test_search_page.

(** [test_responsive_design] *)
Definition test_responsive_design : M World unit :=
  enter Fn.test_responsive_design ;;
  for_each (firstn 3 VIEWPORTS) (fun viewport =>
    setup_driver ;;
    try_finally
      (try_except
         (w <- get ;;
          lift (responsive_load (env w) viewport) ;;
          take_screenshot "dashboard" (vp_name viewport) ;;
          (if (width viewport <? 768)%nat then
             try_except
               (lift (hamburger (env w) viewport) ;;
                log_test
                  ("Mobile hamburger menu (" ++ vp_name viewport ++ ")")
                  "PASS" "Hamburger menu found" "")
               (fun _ =>
                  Some (log_test
                          ("Mobile hamburger menu (" ++ vp_name viewport
                             ++ ")")
                          "WARN"
                          "Hamburger menu not found on mobile viewport" ""))
           else ret tt) ;;
          run_accessibility_check "dashboard" (vp_name viewport) ;;
          log_test ("Responsive test (" ++ vp_name viewport ++ ")") "PASS"
            ("Tested at " ++ str_of_nat (width viewport) ++ "x"
               ++ str_of_nat (height viewport)) "")
         (fun e =>
            Some (log_test ("Responsive test (" ++ vp_name viewport ++ ")")
                    "FAIL" ("Exception: " ++ str_of_exn e) "")))
      driver_quit).

(** "Calculate final verdict" *)
Definition final_verdict (failed warnings : nat) : string :=
  if (5 <? failed)%nat then "FAIL - NEEDS MAJOR FIXES"
  else if (0 <? failed)%nat then "WARN - NEEDS FIXES"
  else if (10 <? warnings)%nat then "WARN - REVIEW WARNINGS"
  else "PASS - READY TO DEPLOY".

Definition set_verdict (v : string) (s : Summary.t) : Summary.t :=
  Summary.mk (Summary.timestamp s) (Summary.base_url s)
    (Summary.test_user s) (Summary.total_tests s) (Summary.passed s)
    (Summary.failed s) (Summary.warnings s) (Some v).

Definition sum_nat (xs : list nat) : nat := fold_left Nat.add xs 0.

(** [generate_report] *)
Definition generate_report : M World unit :=
  enter Fn.generate_report ;;
  w <- get ;;
  let failed := Summary.failed (summary (test_results w)) in
  let warnings := Summary.warnings (summary (test_results w)) in
  let verdict := final_verdict failed warnings in
  modify (with_results (with_summary (set_verdict verdict))) ;;
  w <- get ;;
  let r := test_results w in
  write_file (ARTIFACTS_DIR ++ "/qa-report.json") (QaJson r) ;;
  write_file (ARTIFACTS_DIR ++ "/qa-report.html")
    (QaHtml
       {| verdict_class :=
            if contains "PASS" verdict then "pass"
            else if contains "WARN" verdict then "warn" else "fail";
          verdict_text := verdict;
          stat_total := Summary.total_tests (summary r);
          stat_passed := Summary.passed (summary r);
          stat_warnings := Summary.warnings (summary r);
          stat_failed := Summary.failed (summary r);
          items :=
            map (fun t => (Entry.name t, Entry.details t,
                           lower (Entry.status t), Entry.status t))
              (tests r);
          total_critical := sum_nat (map A11y.critical (accessibility r));
          total_serious := sum_nat (map A11y.serious (accessibility r));
          total_moderate := sum_nat (map A11y.moderate (accessibility r));
          total_minor := sum_nat (map A11y.minor (accessibility r));
          n_screenshots := List.length (screenshots r);
          n_console_errors := List.length (console_errors r);
          n_accessibility := List.length (accessibility r) |}).

(** [main].  The inner computation yields [true] when it took the early
    [return] after a failed sign-in. *)
Definition main : M World unit :=
  test_health_check ;;
  test_protected_routes ;;
  setup_driver ;;
  returned <-
    try_finally
      (test_signup ;;
       signin_success <- test_signin ;;
       if negb (truthy signin_success) then
         driver_quit ;; generate_report ;; ret true
       else
         test_dashboard ;;
         note_id <- test_create_note ;;
         (if truthy note_id then
            test_flashcard_creation note_id ;;
            test_version_history note_id ;; ret tt
          else ret tt) ;;
         test_notes_list ;;
         test_search_page ;;
         ret false)
      driver_quit ;;
  if returned : bool then ret tt
  else test_responsive_design ;; generate_report.

(** The [if __name__ == "__main__"] block: [main()], and on an exception
    the fatal-error handler that writes the report and calls
    [sys.exit(1)]. *)
Definition script (w : World) : World * termination :=
  match main w with
  | (w', Ret _) => (w', Exit 0)
  | (w', Raise _) =>
      match generate_report w' with
      | (w'', Ret _) => (w'', Exit 1)
      | (w'', Raise e) => (w'', Uncaught e)
      end
  end.

(** The journey a function of this script exercises. *)
Definition exercises (f : Fn.t) : option journey :=
  match f with
  | Fn.test_signup => Some Signup
  | Fn.test_signin => Some Signin
  | Fn.test_dashboard => Some DashboardNavigation
  | Fn.test_create_note => Some NoteCreation
  | Fn.test_flashcard_creation => Some FlashcardCRUD
  | Fn.test_version_history => Some VersionHistory
  | Fn.test_responsive_design => Some ResponsiveLayout
  | Fn.run_accessibility_check => Some AccessibilityAudit
  | _ => None
  end.

(** Whether a run entered a function that exercises journey [j]. *)
Definition exercised (j : journey) (w : World) : bool :=
  existsb (fun f => match exercises f with
                    | Some j' => journey_eqb j j'
                    | None => false
                    end) (trace w).

End Selenium.

(* ===================================================================== *)
(** ** The asynchronous browser suite: [qa_test_playwright.py] *)
(* ===================================================================== *)

(** The script runs one coroutine and awaits every call at once, so the
    [await]s are plain sequencing. *)
Module Playwright.
Import Py.
Local Open Scope py_scope.

Definition BASE_URL : string := "http://localhost:3082".
Definition ARTIFACTS_DIR : string := "/home/metrik/docker/Obscurion/artifacts".

Module Summary.
Record t : Type := mk {
  timestamp : string;
  base_url : string;
  test_user : string;
  total_tests : nat;
  passed : nat;
  failed : nat;
  warnings : nat;
  verdict : option string
}.
End Summary.

Module Entry.
Record t : Type := mk {
  name : string;
  status : string;
  details : string;
  evidence : string;
  timestamp : string
}.
End Entry.

(** The module-level dict [test_results]; [console_errors] is a dict from
    a page name to the messages collected there. *)
Record results : Type := mkResults {
  summary : Summary.t;
  tests : list Entry.t;
  screenshots : list string;
  console_errors : list (string * list string)
}.

Module Fn.
Inductive t : Type :=
| test_health_check
| test_protected_routes
| test_signup
| test_signin
| test_dashboard
| test_create_note
| test_flashcard_creation
| test_version_history
| test_notes_list
| test_search_page
| generate_report.
End Fn.

Inductive effect : Type :=
| Log (name : string) (status : status_literal) (details evidence : string)
| Screenshot (path : string)
| ConsoleMessages (page : string) (messages : list string).

Record behaviour : Type := mkBehaviour {
  effects : list effect;
  result : outcome pyval
}.

(** The document [generate_report] renders into [qa-report.html]. *)
Record html_report : Type := mkHtml {
  verdict_class : string;
  verdict_text : string;
  stat_total : nat;
  stat_passed : nat;
  stat_warnings : nat;
  stat_failed : nat;
  groups : list (string * list (string * string * string * string));
    (* category; name, details, status class, status *)
  n_screenshots : nat;
  n_console_errors : nat;
  critical_issues : list (string * string);   (* listed when [failed > 0] *)
  to_review : list (string * string);         (* listed when [warnings > 0] *)
  all_passed : bool
}.

Inductive content : Type :=
| QaJson (r : results)
| QaHtml (doc : html_report).

Record oracle : Type := mkOracle {
  epoch : N;
  now : nat -> string;
  health : outcome Z;
  launch_browser : outcome unit;
    (* [async_playwright()], [chromium.launch], [new_context], [new_page] *)
  browser_closes : nat -> outcome unit;
    (* the k-th [browser.close()] *)
  unauth_visit : outcome string;
    (* [clear_cookies()], [page.goto(BASE_URL/dashboard)], [page.url] *)
  phase : Fn.t -> behaviour
}.

Record World : Type := mkWorld {
  test_results : results;
  disk : list (string * content);
  trace : list Fn.t;
  reads : nat;
  closes : nat;
  env : oracle
}.

Definition TEST_USER_EMAIL (o : oracle) : string :=
  "qatest_" ++ NilZero.string_of_uint (N.to_uint (epoch o))
    ++ "@example.com".

Definition loaded (o : oracle) : World :=
  {| test_results :=
       {| summary := Summary.mk (now o 0) BASE_URL (TEST_USER_EMAIL o)
                       0 0 0 0 None;
          tests := []; screenshots := []; console_errors := [] |};
     disk := []; trace := []; reads := 1; closes := 0; env := o |}.

Definition with_results (f : results -> results) (w : World) : World :=
  {| test_results := f (test_results w); disk := disk w; trace := trace w;
     reads := reads w; closes := closes w; env := env w |}.

Definition with_summary (f : Summary.t -> Summary.t) (r : results)
  : results :=
  {| summary := f (summary r); tests := tests r;
     screenshots := screenshots r; console_errors := console_errors r |}.

Definition enter (f : Fn.t) : M World unit :=
  modify (fun w =>
    {| test_results := test_results w; disk := disk w;
       trace := List.app (trace w) [f]; reads := reads w;
       closes := closes w; env := env w |}).

Definition write_file (path : string) (c : content) : M World unit :=
  modify (fun w =>
    {| test_results := test_results w;
       disk := List.app (disk w) [(path, c)]; trace := trace w;
       reads := reads w; closes := closes w; env := env w |}).

Definition datetime_now : M World string :=
  fun w =>
    ({| test_results := test_results w; disk := disk w; trace := trace w;
        reads := S (reads w); closes := closes w; env := env w |},
     Ret (now (env w) (reads w))).

Definition bump_total (s : Summary.t) : Summary.t :=
  Summary.mk (Summary.timestamp s) (Summary.base_url s)
    (Summary.test_user s) (S (Summary.total_tests s)) (Summary.passed s)
    (Summary.failed s) (Summary.warnings s) (Summary.verdict s).

Definition bump_passed (s : Summary.t) : Summary.t :=
  Summary.mk (Summary.timestamp s) (Summary.base_url s)
    (Summary.test_user s) (Summary.total_tests s) (S (Summary.passed s))
    (Summary.failed s) (Summary.warnings s) (Summary.verdict s).

Definition bump_failed (s : Summary.t) : Summary.t :=
  Summary.mk (Summary.timestamp s) (Summary.base_url s)
    (Summary.test_user s) (Summary.total_tests s) (Summary.passed s)
    (S (Summary.failed s)) (Summary.warnings s) (Summary.verdict s).

Definition bump_warnings (s : Summary.t) : Summary.t :=
  Summary.mk (Summary.timestamp s) (Summary.base_url s)
    (Summary.test_user s) (Summary.total_tests s) (Summary.passed s)
    (Summary.failed s) (S (Summary.warnings s)) (Summary.verdict s).

Definition append_test (e : Entry.t) (r : results) : results :=
  {| summary := summary r; tests := List.app (tests r) [e];
     screenshots := screenshots r; console_errors := console_errors r |}.

(** [log_test] *)
Definition log_test (name status details evidence : string)
  : M World unit :=
  stamp <- datetime_now ;;
  modify (with_results
            (append_test (Entry.mk name status details evidence stamp))) ;;
  modify (with_results (with_summary bump_total)) ;;
  if status =? "PASS" then modify (with_results (with_summary bump_passed))
  else if status =? "FAIL" then
    modify (with_results (with_summary bump_failed))
  else if status =? "WARN" then
    modify (with_results (with_summary bump_warnings))
  else ret tt.

(** [test_health_check]; here it reports whether the endpoint answered 200. *)
Definition test_health_check : M World bool :=
  enter Fn.test_health_check ;;
  try_except
    (w <- get ;;
     code <- lift (health (env w)) ;;
     if (code =? 200)%Z then
       log_test "API Health Check" "PASS" "Health endpoint responding" "" ;;
       ret true
     else
       log_test "API Health Check" "FAIL"
         ("Status code: " ++ DecimalString.NilZero.string_of_int
                                (Z.to_int code)) "" ;;
       ret false)
    (fun e =>
       Some (log_test "API Health Check" "FAIL"
               ("Health endpoint unreachable: " ++ str_of_exn e) "" ;;
             ret false)).

(** [test_protected_routes] *)
Definition test_protected_routes : M World unit :=
  enter Fn.test_protected_routes ;;
  try_except
    (w <- get ;;
     current_url <- lift (unauth_visit (env w)) ;;
     if contains "/auth/signin" current_url then
       log_test "Protected route redirect" "PASS"
         "Dashboard redirects to signin when unauthenticated" ""
     else
       log_test "Protected route redirect" "FAIL"
         ("Dashboard accessible without auth: " ++ current_url) "")
    (fun e =>
       Some (log_test "Protected route redirect" "FAIL"
               ("Exception: " ++ str_of_exn e) "")).

(** [d[k] = v] on a dict kept in insertion order. *)
Fixpoint dict_set {V : Type} (k : string) (v : V) (d : list (string * V))
  : list (string * V) :=
  match d with
  | [] => [(k, v)]
  | (k', v') :: rest =>
      if k' =? k then (k', v) :: rest else (k', v') :: dict_set k v rest
  end.

Definition apply_effect (e : effect) : M World unit :=
  match e with
  | Log name status details evidence =>
      log_test name (status_str status) details evidence
  | Screenshot path =>
      modify (with_results (fun r =>
        {| summary := summary r; tests := tests r;
           screenshots := List.app (screenshots r) [path];
           console_errors := console_errors r |}))
  | ConsoleMessages page messages =>
      modify (with_results (fun r =>
        {| summary := summary r; tests := tests r;
           screenshots := screenshots r;
           console_errors := dict_set page messages (console_errors r) |}))
  end.

(** A page-driving test coroutine, as in the synchronous suite. *)
Definition drive (f : Fn.t) : M World pyval :=
  enter f ;;
  w <- get ;;
  for_each (effects (phase (env w) f)) apply_effect ;;
  lift (result (phase (env w) f)).

Definition test_signup : M World pyval := drive Fn.test_signup.
Definition test_signin : M World pyval := drive Fn.test_signin.
Definition test_dashboard : M World pyval := drive Fn.test_dashboard.
Definition test_create_note : M World pyval := drive Fn.test_create_note.
Definition test_flashcard_creation (note_id : pyval) : M World pyval :=
  drive Fn.test_flashcard_creation.
Definition test_version_history (note_id : pyval) : M World pyval :=
  drive Fn.test_version_history.
Definition test_notes_list : M World pyval := drive Fn.test_notes_list.
Definition test_search_page : M World pyval := drive Fn.test_search_page.

(** "Calculate final verdict" *)
Definition final_verdict (failed warnings : nat) : string :=
  if (5 <? failed)%nat then "FAIL - NEEDS MAJOR FIXES"
  else if (0 <? failed)%nat then "WARN - NEEDS FIXES"
  else if (10 <? warnings)%nat then "WARN - REVIEW WARNINGS"
  else "PASS - READY TO DEPLOY".

Definition set_verdict (v : string) (s : Summary.t) : Summary.t :=
  Summary.mk (Summary.timestamp s) (Summary.base_url s)
    (Summary.test_user s) (Summary.total_tests s) (Summary.passed s)
    (Summary.failed s) (Summary.warnings s) (Some v).

(** "Group tests by category" *)
Definition category_of (name : string) : string :=
  let n := lower name in
  if contains "sign" n || contains "auth" n || contains "protected" n
  then "Authentication"
  else if contains "navigation" n || contains "menu" n then "Navigation"
  else if contains "flashcard" n then "Flashcards"
  else if contains "version" n then "Version History"
  else if contains "note" n then "Notes"
  else "Other".

Definition categories : list string :=
  ["Authentication"; "Navigation"; "Notes"; "Flashcards"; "Version History";
   "Other"].

Definition item_of (t : Entry.t) : string * string * string * string :=
  (Entry.name t, Entry.details t, lower (Entry.status t), Entry.status t).

Definition grouped (ts : list Entry.t)
  : list (string * list (string * string * string * string)) :=
  filter (fun g => negb (Nat.eqb (List.length (snd g)) 0))
    (map (fun c =>
            (c, map item_of
                  (filter (fun t => category_of (Entry.name t) =? c) ts)))
       categories).

Definition with_status (st : string) (ts : list Entry.t)
  : list (string * string) :=
  map (fun t => (Entry.name t, Entry.details t))
    (filter (fun t => Entry.status t =? st) ts).

(** [generate_report] *)
Definition generate_report : M World unit :=
  enter Fn.generate_report ;;
  w <- get ;;
  let failed := Summary.failed (summary (test_results w)) in
  let warnings := Summary.warnings (summary (test_results w)) in
  let verdict := final_verdict failed warnings in
  modify (with_results (with_summary (set_verdict verdict))) ;;
  w <- get ;;
  let r := test_results w in
  write_file (ARTIFACTS_DIR ++ "/qa-report.json") (QaJson r) ;;
  write_file (ARTIFACTS_DIR ++ "/qa-report.html")
    (QaHtml
       {| verdict_class :=
            if contains "PASS" verdict then "pass"
            else if contains "WARN" verdict then "warn" else "fail";
          verdict_text := verdict;
          stat_total := Summary.total_tests (summary r);
          stat_passed := Summary.passed (summary r);
          stat_warnings := Summary.warnings (summary r);
          stat_failed := Summary.failed (summary r);
          groups := grouped (tests r);
          n_screenshots := List.length (screenshots r);
          n_console_errors := List.length (console_errors r);
          critical_issues :=
            if (0 <? failed)%nat then with_status "FAIL" (tests r) else [];
          to_review :=
            if (0 <? warnings)%nat then with_status "WARN" (tests r)
            else [];
          all_passed := Nat.eqb failed 0 && Nat.eqb warnings 0 |}).

(** [p.chromium.launch], [browser.new_context], [context.new_page] *)
Definition launch : M World unit :=
  w <- get ;;
  lift (launch_browser (env w)).

(** [browser.close()] *)
Definition browser_close : M World unit :=
  fun w =>
    ({| test_results := test_results w; disk := disk w; trace := trace w;
        reads := reads w; closes := S (closes w); env := env w |},
     browser_closes (env w) (closes w)).

(** [main].  The inner computation yields [true] when it took the early
    [return] after a failed sign-in. *)
Definition main : M World unit :=
  health_ok <- test_health_check ;;
  if negb health_ok then generate_report
  else
    launch ;;
    returned <-
      try_finally
        (try_except
           (test_protected_routes ;;
            test_signup ;;
            signin_success <- test_signin ;;
            if negb (truthy signin_success) then
              browser_close ;; generate_report ;; ret true
            else
              test_dashboard ;;
              note_id <- test_create_note ;;
              (if truthy note_id then
                 test_flashcard_creation note_id ;;
                 test_version_history note_id ;; ret tt
               else ret tt) ;;
              test_notes_list ;;
              test_search_page ;;
              ret false)
           (fun _ => Some (ret false)))
        browser_close ;;
    if returned : bool then ret tt else generate_report.

(** The [if __name__ == "__main__"] block: on an exception the handler
    writes the report; it does not call [sys.exit]. *)
Definition script (w : World) : World * termination :=
  match main w with
  | (w', Ret _) => (w', Exit 0)
  | (w', Raise _) =>
      match generate_report w' with
      | (w'', Ret _) => (w'', Exit 0)
      | (w'', Raise e) => (w'', Uncaught e)
      end
  end.

Definition exercises (f : Fn.t) : option journey :=
  match f with
  | Fn.test_signup => Some Signup
  | Fn.test_signin => Some Signin
  | Fn.test_dashboard => Some DashboardNavigation
  | Fn.test_create_note => Some NoteCreation
  | Fn.test_flashcard_creation => Some FlashcardCRUD
  | Fn.test_version_history => Some VersionHistory
  | _ => None
  end.

Definition exercised (j : journey) (w : World) : bool :=
  existsb (fun f => match exercises f with
                    | Some j' => journey_eqb j j'
                    | None => false
                    end) (trace w).

End Playwright.


(* ===================================================================== *)
(** ** Vocabulary of the statements *)
(* ===================================================================== *)

Module ApiSpec.
Import Py ApiSuite.

(** The methods [run_test] knows how to send. *)
Definition supported (m : string) : bool :=
  (m =? "GET") || (m =? "POST") || (m =? "OPTIONS").


(** What [run_test] reads off the server's answer. *)
Definition attempt_of (rep : reply) : Z * string * option response :=
  match rep with
  | Response r => (status_code r, take 500 (text r), Some r)
  | RequestFailure msg => (0%Z, msg, None)
  end.

(** The record a returning [run_test c] builds in world [w]. *)
Definition result_of (c : call) (w : World) : TestResult.t :=
  let '(actual, body, resp) := attempt_of (net w (List.length (sent w))) in
  let '(passed, notes) := judge c actual resp in
  TestResult.mk (S (test_num (self w))) (name c) (description c) (url c)
    (expected_status c) actual body
    ((clock w (S (ticks w)) - clock w (ticks w)) * 1000)%Q passed notes.

(** The world a returning [run_test c] leaves. *)
Definition world_after (c : call) (w : World) : World :=
  let r := result_of c w in
  {| self :=
       {| test_num := S (test_num (self w));
          pass_count := if TestResult.passed r then S (pass_count (self w))
                        else pass_count (self w);
          fail_count := if TestResult.passed r then fail_count (self w)
                        else S (fail_count (self w));
          results := List.app (results (self w)) [r];
          timestamp := timestamp (self w) |};
     clock := clock w; ticks := S (S (ticks w)); net := net w;
     sent := List.app (sent w) [(method c, url c)];
     disk := List.app (disk w)
               [(OUTPUT_DIR ++ "/test-" ++ zfill 3 (S (test_num (self w)))
                   ++ "-"
                   ++ (if TestResult.passed r then "pass" else "fail")
                   ++ ".json",
                 TestRecord r)] |}.


(** A run of the calls [cs], one [run_test] after the other. *)
Definition run_tests (cs : list call) : M World unit :=
  for_each cs (fun c => bind (run_test c) (fun _ => ret tt)).

(** Every call the suite issues, in the order [main] issues them. *)
Definition issued : list call := List.app api_tests security_tests.

(** The numbering invariant of the suite object. *)
Definition numbered (s : TestSuite) : Prop :=
  test_num s = List.length (results s)
  /\ forall k r,
      nth_error (results s) k = Some r -> TestResult.test_num r = S k.

(** What the performance test measures in world [w]: the samples, and the
    total time in milliseconds. *)
Definition measured (w : World) : list Q * Q :=
  match time_time w with
  | (w1, Ret start_time) =>
      match sample_requests w1 with
      | (w2, Ret times) =>
          match time_time w2 with
          | (_, Ret t) => (times, ((t - start_time) * 1000)%Q)
          | (_, Raise _) => (times, 0%Q)
          end
      | (_, Raise _) => ([], 0%Q)
      end
  | (_, Raise _) => ([], 0%Q)
  end.

(** *** Sample worlds *)

Definition healthy : response :=
  mkResponse 200 "{}" (Ret (JObj [("status", JStr "healthy")])).

Definition unauthorized : response :=
  mkResponse 401 "Unauthorized" (Raise (ValueError "no JSON")).

(** A server that answers the first request with a healthy 200 and every
    other one with 401. *)
Definition gated_server (k : nat) : reply :=
  if (k =? 0)%nat then Response healthy else Response unauthorized.

(** A server nobody can reach. *)
Definition dead_server (k : nat) : reply :=
  RequestFailure "Connection refused".

(** A clock that advances by a quarter of a second per reading, and one
    whose readings never change. *)
Definition ticking_clock (k : nat) : Q := (Z.of_nat k # 4)%Q.
Definition stalled_clock (k : nat) : Q := 0%Q.

Definition sample_world : World :=
  fresh "20250101_120000" ticking_clock gated_server.

Definition stalled_world : World :=
  fresh "20250101_120000" stalled_clock dead_server.

(** A call with a method [run_test] does not know. *)
Definition put_probe : call :=
  {| name := "Probe"; url := BASE_URL ++ "/api/health";
     expected_status := 200; description := "PUT probe";
     auth_required := false; method := "PUT"; data := None;
     check_response := None |}.

End ApiSpec.

Module SeleniumSpec.
Import Py Selenium.

(** The tally agrees with the list of logged tests. *)
Definition tally_ok (r : results) : Prop :=
  Summary.passed (summary r) + Summary.failed (summary r)
  + Summary.warnings (summary r)
  = Summary.total_tests (summary r)
  /\ Summary.total_tests (summary r) = List.length (tests r).

(** The summary after one more test with status [st]. *)
Definition tallied (st : status_literal) (s : Summary.t) : Summary.t :=
  Summary.mk (Summary.timestamp s) (Summary.base_url s)
    (Summary.test_user s) (S (Summary.total_tests s))
    (match st with PASS => S (Summary.passed s) | _ => Summary.passed s end)
    (match st with FAIL => S (Summary.failed s) | _ => Summary.failed s end)
    (match st with
     | WARN => S (Summary.warnings s)
     | _ => Summary.warnings s
     end)
    (Summary.verdict s).

(** The world [log_test name st details evidence] leaves. *)
Definition logged (name : string) (st : status_literal)
  (details evidence : string) (w : World) : World :=
  {| test_results :=
       {| summary := tallied st (summary (test_results w));
          tests :=
            List.app (tests (test_results w))
              [Entry.mk name (status_str st) details evidence
                 (now (env w) (reads w))];
          accessibility := accessibility (test_results w);
          screenshots := screenshots (test_results w);
          console_errors := console_errors (test_results w) |};
     disk := disk w; trace := trace w; reads := S (reads w);
     started := started w; quits := quits w; env := env w |}.

(** The files a computation adds to the disk. *)
Definition written (before after : World) : list (string * content) :=
  skipn (List.length (disk before)) (disk after).

(** A browser and an application that let every phase run to its end:
    drivers start and quit, pages load, screenshots are taken, the page
    functions return, the sign-in succeeds and a note id comes back. *)
Definition cooperative (o : oracle) : Prop :=
  (forall k, driver_starts o k = Ret tt)
  /\ (forall k, driver_quits o k = Ret tt)
  /\ (forall v, responsive_load o v = Ret tt)
  /\ (forall n v, returns (save_screenshot o n v) = true)
  /\ (forall f, returns (result (phase o f)) = true)
  /\ (exists v, result (phase o Fn.test_signin) = Ret v /\ truthy v = true)
  /\ (exists v, result (phase o Fn.test_create_note) = Ret v
                /\ truthy v = true).

(** What the run of a cooperative browser enters, in order. *)
Definition full_trace : list Fn.t :=
  [ Fn.test_health_check; Fn.test_protected_routes; Fn.test_signup;
    Fn.test_signin; Fn.test_dashboard; Fn.test_create_note;
    Fn.test_flashcard_creation; Fn.test_version_history;
    Fn.test_notes_list; Fn.test_search_page; Fn.test_responsive_design;
    Fn.run_accessibility_check; Fn.run_accessibility_check;
    Fn.run_accessibility_check; Fn.generate_report ].

(** *** Sample browsers *)

Definition quiet : behaviour := mkBehaviour [] (Ret PyNone).

(** Every page works; the sign-in answers [True], the note gets id 42. *)
Definition friendly : oracle :=
  {| epoch := 1700000000%N;
     now := fun k => "2025-01-01T12:00:" ++ zfill 2 k;
     health := Ret 200%Z;
     driver_starts := fun _ => Ret tt;
     driver_quits := fun _ => Ret tt;
     unauth_visit := Ret "http://localhost:3082/auth/signin";
     save_screenshot := fun n v => Ret (n ++ "_" ++ v ++ ".png");
     axe := fun _ _ => Ret ["minor"];
     responsive_load := fun _ => Ret tt;
     hamburger := fun _ => Ret tt;
     phase := fun f =>
       match f with
       | Fn.test_signup =>
           mkBehaviour [Log "User signup" PASS "Redirected" ""]
             (Ret (PyBool true))
       | Fn.test_signin =>
           mkBehaviour [Log "User signin" PASS "Successfully logged in" ""]
             (Ret (PyBool true))
       | Fn.test_create_note =>
           mkBehaviour
             [Log "Note creation" PASS "Note created with ID: 42" ""]
             (Ret (PyStr "42"))
       | _ => quiet
       end |}.


(** What one logged test with status [st] does to the counters. *)
Definition counted (st : status_literal) (s s' : Summary.t) : Prop :=
  Summary.total_tests s' = S (Summary.total_tests s)
  /\ Summary.passed s'
     = match st with PASS => S (Summary.passed s) | _ => Summary.passed s end
  /\ Summary.failed s'
     = match st with FAIL => S (Summary.failed s) | _ => Summary.failed s end
  /\ Summary.warnings s'
     = match st with
       | WARN => S (Summary.warnings s)
       | _ => Summary.warnings s
       end.

(** The tally of a world is sound. *)
Definition tallied_world (w : World) : Prop := tally_ok (test_results w).

(** With browser [o], the computation [m] returns [v] from every world,
    keeps the browser, and enters exactly the functions [ts]. *)
Definition covers {A : Type} (o : oracle) (m : M World A) (v : A)
  (ts : list Fn.t) : Prop :=
  forall w,
    env w = o ->
    exists w',
      m w = (w', Ret v) /\ env w' = o
      /\ trace w' = List.app (trace w) ts.

End SeleniumSpec.

Module PlaywrightSpec.
Import Py Playwright.

Definition tally_ok (r : results) : Prop :=
  Summary.passed (summary r) + Summary.failed (summary r)
  + Summary.warnings (summary r)
  = Summary.total_tests (summary r)
  /\ Summary.total_tests (summary r) = List.length (tests r).

Definition tallied (st : status_literal) (s : Summary.t) : Summary.t :=
  Summary.mk (Summary.timestamp s) (Summary.base_url s)
    (Summary.test_user s) (S (Summary.total_tests s))
    (match st with PASS => S (Summary.passed s) | _ => Summary.passed s end)
    (match st with FAIL => S (Summary.failed s) | _ => Summary.failed s end)
    (match st with
     | WARN => S (Summary.warnings s)
     | _ => Summary.warnings s
     end)
    (Summary.verdict s).

Definition logged (name : string) (st : status_literal)
  (details evidence : string) (w : World) : World :=
  {| test_results :=
       {| summary := tallied st (summary (test_results w));
          tests :=
            List.app (tests (test_results w))
              [Entry.mk name (status_str st) details evidence
                 (now (env w) (reads w))];
          screenshots := screenshots (test_results w);
          console_errors := console_errors (test_results w) |};
     disk := disk w; trace := trace w; reads := S (reads w);
     closes := closes w; env := env w |}.

Definition written (before after : World) : list (string * content) :=
  skipn (List.length (disk before)) (disk after).

(** The health endpoint answers 200, the browser launches and closes, the
    page coroutines return, the sign-in succeeds and a note id comes
    back. *)
Definition cooperative (o : oracle) : Prop :=
  health o = Ret 200%Z
  /\ launch_browser o = Ret tt
  /\ (forall k, browser_closes o k = Ret tt)
  /\ (forall f, returns (result (phase o f)) = true)
  /\ (exists v, result (phase o Fn.test_signin) = Ret v /\ truthy v = true)
  /\ (exists v, result (phase o Fn.test_create_note) = Ret v
                /\ truthy v = true).

Definition full_trace : list Fn.t :=
  [ Fn.test_health_check; Fn.test_protected_routes; Fn.test_signup;
    Fn.test_signin; Fn.test_dashboard; Fn.test_create_note;
    Fn.test_flashcard_creation; Fn.test_version_history;
    Fn.test_notes_list; Fn.test_search_page; Fn.generate_report ].

(** The journeys both suites have a phase for. *)
Definition shared_journeys : list journey :=
  [Signup; Signin; DashboardNavigation; NoteCreation; FlashcardCRUD;
   VersionHistory].

Definition quiet : behaviour := mkBehaviour [] (Ret PyNone).

Definition friendly : oracle :=
  {| epoch := 1700000000%N;
     now := fun k => "2025-01-01T12:00:" ++ zfill 2 k;
     health := Ret 200%Z;
     launch_browser := Ret tt;
     browser_closes := fun _ => Ret tt;
     unauth_visit := Ret "http://localhost:3082/auth/signin";
     phase := fun f =>
       match f with
       | Fn.test_signup =>
           mkBehaviour [Log "User signup" PASS "Redirected" ""]
             (Ret (PyBool true))
       | Fn.test_signin =>
           mkBehaviour [Log "User signin" PASS "Successfully logged in" ""]
             (Ret (PyBool true))
       | Fn.test_create_note =>
           mkBehaviour
             [Log "Note creation" PASS "Note created with ID: 42" ""]
             (Ret (PyStr "42"))
       | _ => quiet
       end |}.

(** What one logged test with status [st] does to the counters. *)
Definition counted (st : status_literal) (s s' : Summary.t) : Prop :=
  Summary.total_tests s' = S (Summary.total_tests s)
  /\ Summary.passed s'
     = match st with PASS => S (Summary.passed s) | _ => Summary.passed s end
  /\ Summary.failed s'
     = match st with FAIL => S (Summary.failed s) | _ => Summary.failed s end
  /\ Summary.warnings s'
     = match st with
       | WARN => S (Summary.warnings s)
       | _ => Summary.warnings s
       end.

(** The tally of a world is sound. *)
Definition tallied_world (w : World) : Prop := tally_ok (test_results w).

(** With browser [o], the computation [m] returns [v] from every world,
    keeps the browser, and enters exactly the functions [ts]. *)
Definition covers {A : Type} (o : oracle) (m : M World A) (v : A)
  (ts : list Fn.t) : Prop :=
  forall w,
    env w = o ->
    exists w',
      m w = (w', Ret v) /\ env w' = o
      /\ trace w' = List.app (trace w) ts.

End PlaywrightSpec.

(** A computation keeps a property of the world, whether it returns or
    raises. *)
Module Hoare.
Import Py.

Definition keeps {W A : Type} (P : W -> Prop) (m : M W A) : Prop :=
  forall w, P w -> P (fst (m w)).

End Hoare.

(* ===================================================================== *)
(** ** The HTTP API suite: bookkeeping vocabulary *)
(* ===================================================================== *)

Module ApiLedger.
Import Py ApiSuite ApiSpec.

(** How many recorded results passed, and how many failed. *)
Definition passes (rs : list TestResult.t) : nat :=
  List.length (filter TestResult.passed rs).

Definition failures (rs : list TestResult.t) : nat :=
  List.length (filter (fun r => negb (TestResult.passed r)) rs).

(** The counters of the suite object agree with its recorded results. *)
Definition balanced (s : TestSuite) : Prop :=
  pass_count s = passes (results s)
  /\ fail_count s = failures (results s)
  /\ test_num s = List.length (results s).

(** The name of the file [run_test] writes for a result. *)
Definition file_of (r : TestResult.t) : string :=
  OUTPUT_DIR ++ "/test-" ++ zfill 3 (TestResult.test_num r) ++ "-"
    ++ (if TestResult.passed r then "pass" else "fail") ++ ".json".

(** A server nobody can reach: every request fails. *)
Definition unreachable (net : nat -> reply) : Prop :=
  forall k, exists msg, net k = RequestFailure msg.

Definition responded (rep : reply) : bool :=
  match rep with
  | Response _ => true
  | RequestFailure _ => false
  end.

(** Among the next [n] requests sent from world [w] on, those the server
    answers with a response. *)
Definition answered (w : World) (n : nat) : list nat :=
  filter (fun k => responded (net w (List.length (sent w) + k))) (seq 0 n).

(** The world after the 32 tests of [run_api_tests] and
    [run_security_tests]. *)
Definition after_tests (w : World) : World :=
  fold_left (fun w c => world_after c w) issued w.

(** What [run_test] writes for a result. *)
Definition record_of (r : TestResult.t) : string * content :=
  (file_of r, TestRecord r).

(** The URLs of the performance test's requests. *)
Definition sample_urls : list (string * string) :=
  map (fun i => ("GET", BASE_URL ++ "/api/search?q=test" ++ str_of_nat i))
    (seq 0 10).

(** [int(s)] on a string of decimal digits. *)
Definition parse_nat (s : string) : option nat :=
  option_map Nat.of_uint (NilZero.uint_of_string s).

(** The health check of [run_api_tests], its first call. *)
Definition health_call : call := hd put_probe api_tests.

End ApiLedger.

(* ===================================================================== *)
(** ** The embedding at work *)
(* ===================================================================== *)

Module Examples.
Import Py.

Example quote_sql_payload : quote "' OR '1'='1" = "%27%20OR%20%271%27%3D%271".
Proof. reflexivity. Qed.

Example quote_keeps_slashes :
  quote "../../../../etc/passwd" = "../../../../etc/passwd".
Proof. reflexivity. Qed.

Example zfill_pads : zfill 3 7 = "007" /\ zfill 3 1234 = "1234".
Proof. split; reflexivity. Qed.

Example report_names_have_formats :
  format_of_path "/artifacts/qa-report.html" = Some HTML
  /\ format_of_path "/artifacts/shot.png" = None.
Proof. split; reflexivity. Qed.

Example health_check_on_healthy :
  ApiSuite.health_check (JObj [("status", JStr "healthy")])
  = Ret (PyBool true).
Proof. reflexivity. Qed.

Example health_check_last_key_wins :
  ApiSuite.health_check
    (JObj [("status", JStr "healthy"); ("status", JStr "down")])
  = Ret (PyBool false).
Proof. reflexivity. Qed.

Example health_check_on_a_list :
  ApiSuite.health_check (JArr [JStr "status"])
  = Raise (TypeError "list indices must be integers or slices, not str").
Proof. reflexivity. Qed.

(** The suite against a server that gates every search behind a login,
    with a clock that advances 250 ms per reading: 32 tests and the
    performance test pass, and the process exits with status 0. *)
Example api_suite_on_gated_server :
  let (w, t) := ApiSuite.main ApiSpec.sample_world in
  (ApiSuite.test_num (ApiSuite.self w), ApiSuite.pass_count (ApiSuite.self w),
   ApiSuite.fail_count (ApiSuite.self w), List.length (ApiSuite.sent w),
   List.length (ApiSuite.disk w), t)
  = (32, 33, 0, 42, 34, Exit 0).
Proof. vm_compute. reflexivity. Qed.

(** The same suite when nothing answers and the clock stands still: every
    test fails with status 0, and the performance test ends the run. *)
Example api_suite_on_dead_server :
  let (w, t) := ApiSuite.main ApiSpec.stalled_world in
  (ApiSuite.test_num (ApiSuite.self w), ApiSuite.pass_count (ApiSuite.self w),
   ApiSuite.fail_count (ApiSuite.self w), t)
  = (32, 0, 32, Uncaught (ZeroDivisionError "division by zero")).
Proof. vm_compute. reflexivity. Qed.

Example verdict_thresholds :
  Selenium.final_verdict 6 0 = "FAIL - NEEDS MAJOR FIXES"
  /\ Selenium.final_verdict 5 40 = "WARN - NEEDS FIXES"
  /\ Selenium.final_verdict 0 11 = "WARN - REVIEW WARNINGS"
  /\ Selenium.final_verdict 0 10 = "PASS - READY TO DEPLOY".
Proof. repeat split. Qed.

Example selenium_run_with_friendly_browser :
  let (w, t) := Selenium.script (Selenium.loaded SeleniumSpec.friendly) in
  (t, Selenium.trace w,
   Selenium.Summary.total_tests (Selenium.summary (Selenium.test_results w)),
   Selenium.Summary.verdict (Selenium.summary (Selenium.test_results w)),
   map fst (Selenium.disk w))
  = (Exit 0, SeleniumSpec.full_trace, 13, Some "PASS - READY TO DEPLOY",
     ["/home/metrik/docker/Obscurion/artifacts/a11y/dashboard_mobile_small.json";
      "/home/metrik/docker/Obscurion/artifacts/a11y/dashboard_mobile_large.json";
      "/home/metrik/docker/Obscurion/artifacts/a11y/dashboard_tablet.json";
      "/home/metrik/docker/Obscurion/artifacts/qa-report.json";
      "/home/metrik/docker/Obscurion/artifacts/qa-report.html"]).
Proof. vm_compute. reflexivity. Qed.

Example playwright_categories :
  map Playwright.category_of
    ["User signin"; "Navigation menu on dashboard"; "Flashcard deletion";
     "Version history list"; "Note creation"; "API Health Check";
     "Notes list table"]
  = ["Authentication"; "Navigation"; "Flashcards"; "Version History";
     "Notes"; "Other"; "Notes"].
Proof. reflexivity. Qed.

End Examples.

(* ===================================================================== *)
(** ** Facts about the prelude *)
(* ===================================================================== *)

Module PyFacts.
Import Py.

Lemma list_ascii_app (s t : string) :
  list_ascii_of_string (s ++ t)
  = List.app (list_ascii_of_string s) (list_ascii_of_string t).
Proof.
  induction s as [|c s IH]; simpl.
  - reflexivity.
  - now rewrite IH.
Qed.

Lemma starts_with_app (p l : list ascii) : starts_with p (List.app p l) = true.
Proof.
  induction p as [|a p IH]; simpl.
  - reflexivity.
  - now rewrite Ascii.eqb_refl, IH.
Qed.

(** A path ends with the suffix it was built with. *)
Lemma endswith_app (s suffix : string) : endswith (s ++ suffix) suffix = true.
Proof.
  unfold endswith.
  rewrite list_ascii_app, rev_app_distr.
  apply starts_with_app.
Qed.

(** Two suffixes that end in different characters exclude each other. *)
Lemma endswith_other (s : string) (a b : ascii) (x y : list ascii) :
  a <> b ->
  starts_with (a :: x) (List.app (b :: y) (rev (list_ascii_of_string s)))
  = false.
Proof.
  intros Hab. simpl.
  destruct (Ascii.eqb_spec a b) as [E|_]; [contradiction|reflexivity].
Qed.

Lemma format_json (s : string) : format_of_path (s ++ ".json") = Some JSON.
Proof.
  unfold format_of_path. now rewrite endswith_app.
Qed.

Lemma format_md (s : string) : format_of_path (s ++ ".md") = Some Markdown.
Proof.
  unfold format_of_path.
  assert (H : forall suffix c x,
             rev (list_ascii_of_string suffix) = c :: x ->
             c <> "d"%char -> endswith (s ++ ".md") suffix = false).
  { intros suffix c x Hrev Hc. unfold endswith.
    rewrite Hrev, list_ascii_app, rev_app_distr.
    apply (endswith_other s c "d"%char x ["m"; "."]%char Hc). }
  rewrite (H ".json" "n"%char ["o"; "s"; "j"; "."]%char eq_refl)
    by discriminate.
  rewrite (H ".html" "l"%char ["m"; "t"; "h"; "."]%char eq_refl)
    by discriminate.
  now rewrite endswith_app.
Qed.

(** [truediv] raises on a zero divisor only. *)
Lemma truediv_returns (a b : Q) :
  ~ (b == 0)%Q -> truediv a b = Ret (a / b)%Q.
Proof.
  intros Hb. unfold truediv.
  destruct (Qeq_bool b 0) eqn:E; [|reflexivity].
  apply Qeq_bool_iff in E. contradiction.
Qed.

End PyFacts.

(* ===================================================================== *)
(** ** The HTTP API suite: facts *)
(* ===================================================================== *)

Module ApiFacts.
Import Py ApiSuite ApiSpec PyFacts.

(** *** [run_test] in closed form *)

Lemma dispatch_supported (c : call) (w : World) :
  supported (method c) = true ->
  (if method c =? "GET" then requests_get (url c)
   else if method c =? "POST" then requests_post (url c) (data c)
   else if method c =? "OPTIONS" then requests_options (url c)
   else raise (ValueError ("Unsupported method: " ++ method c))) w
  = request (method c) (url c) w.
Proof.
  unfold supported. intros Hs.
  destruct (method c =? "GET") eqn:E1.
  - apply String.eqb_eq in E1. now rewrite E1.
  - destruct (method c =? "POST") eqn:E2.
    + apply String.eqb_eq in E2. now rewrite E2.
    + destruct (method c =? "OPTIONS") eqn:E3; [|discriminate].
      apply String.eqb_eq in E3. now rewrite E3.
Qed.

Lemma run_test_eq (c : call) (w : World) :
  supported (method c) = true ->
  run_test c w = (world_after c w, Ret (result_of c w)).
Proof.
  intros Hs.
  unfold run_test, bind at 1 2 3. unfold modify at 1, time_time at 1.
  cbn [fst snd].
  unfold try_except, bind at 1. rewrite (dispatch_supported c _ Hs).
  unfold world_after, result_of, request.
  cbn -[judge zfill take OUTPUT_DIR String.append].
  destruct (net w (List.length (sent w))) as [r|msg];
    cbn -[judge zfill take OUTPUT_DIR String.append].
  - destruct (judge c (status_code r) (Some r)) as [p n].
    cbn -[zfill take OUTPUT_DIR String.append]. now destruct p.
  - destruct (judge c 0%Z None) as [p n].
    cbn -[zfill take OUTPUT_DIR String.append]. now destruct p.
Qed.


(** *** The pass rule *)




Lemma result_fields (c : call) (w : World) :
  let rep := net w (List.length (sent w)) in
  let r := result_of c w in
  TestResult.actual_status r = fst (fst (attempt_of rep))
  /\ TestResult.response_body r = snd (fst (attempt_of rep))
  /\ TestResult.passed r
     = fst (judge c (fst (fst (attempt_of rep))) (snd (attempt_of rep)))
  /\ TestResult.expected_status r = expected_status c
  /\ TestResult.test_num r = S (test_num (self w)).
Proof.
  cbv zeta. unfold result_of.
  destruct (attempt_of (net w (List.length (sent w)))) as [[actual body] resp].
  cbn [fst snd].
  destruct (judge c actual resp) as [p n]. cbn. repeat split.
Qed.

(** *** Sequences of calls *)






(** The worlds a run of supported calls goes through. *)
Lemma run_tests_eq (cs : list call) (w : World) :
  Forall (fun c => supported (method c) = true) cs ->
  run_tests cs w = (fold_left (fun w c => world_after c w) cs w, Ret tt).
Proof.
  intros H. revert w. induction H as [|c cs Hc _ IH]; intros w.
  - reflexivity.
  - unfold run_tests in *. simpl. unfold bind at 1 2.
    rewrite (run_test_eq c w Hc). unfold ret at 1. apply IH.
Qed.

Lemma issued_supported : Forall (fun c => supported (method c) = true) issued.
Proof. repeat constructor. Qed.

Lemma numbered_step (c : call) (w : World) :
  numbered (self w) -> numbered (self (world_after c w)).
Proof.
  intros [Hn Hk]. split; cbn.
  - rewrite length_app. simpl. lia.
  - intros k r Hr.
    destruct (Nat.lt_ge_cases k (List.length (results (self w)))) as [Hlt|Hge].
    + rewrite nth_error_app1 in Hr by exact Hlt. now apply Hk.
    + rewrite nth_error_app2 in Hr by exact Hge.
      destruct (k - List.length (results (self w))) as [|d] eqn:Ed.
      * injection Hr as <-.
        destruct (result_fields c w) as (_ & _ & _ & _ & Hnum).
        rewrite Hnum, Hn. f_equal. lia.
      * destruct d; discriminate.
Qed.

Lemma numbered_run (cs : list call) (w : World) :
  numbered (self w) ->
  let w' := fold_left (fun w c => world_after c w) cs w in
  numbered (self w')
  /\ test_num (self w') = test_num (self w) + List.length cs.
Proof.
  revert w. induction cs as [|c cs IH]; intros w Hn; simpl.
  - split; [exact Hn|lia].
  - destruct (IH (world_after c w) (numbered_step c w Hn)) as [H1 H2].
    split; [exact H1|]. rewrite H2. cbn. lia.
Qed.

Lemma Forall_firstn {A : Type} (P : A -> Prop) (k : nat) (l : list A) :
  Forall P l -> Forall P (firstn k l).
Proof.
  intros H. revert k. induction H as [|x l Hx _ IH]; intros [|k]; simpl;
    constructor; auto.
Qed.

(** *** The performance test and the ratios *)

Lemma Q_of_nat_zero (n : nat) : (Q_of_nat n == 0)%Q -> n = 0.
Proof. unfold Q_of_nat, Qeq. simpl. lia. Qed.


Lemma success_rate_returns (s : TestSuite) :
  success_rate s
  = Ret (if (0 <? pass_count s + fail_count s)%nat
         then (Q_of_nat (pass_count s)
               / Q_of_nat (pass_count s + fail_count s) * 100)%Q
         else 0%Q).
Proof.
  unfold success_rate.
  destruct (Nat.ltb_spec 0 (pass_count s + fail_count s)) as [H|H];
    [|reflexivity].
  rewrite truediv_returns; [reflexivity|].
  intros H0. apply Q_of_nat_zero in H0. lia.
Qed.





(** *** Reports and exit *)

Lemma append_assoc (a b c : string) : (a ++ b) ++ c = a ++ b ++ c.
Proof. induction a as [|x a IH]; simpl; [reflexivity|now rewrite IH]. Qed.

Lemma written_app (w : World) (w' : World) (files : list (string * content)) :
  disk w' = List.app (disk w) files -> written w w' = files.
Proof.
  intros E. unfold written. rewrite E, skipn_app, skipn_all, Nat.sub_diag.
  reflexivity.
Qed.

Lemma generate_report_eq (w : World) :
  exists rate json_path md_path,
    success_rate (self w) = Ret rate
    /\ json_path = (OUTPUT_DIR ++ "/api-test-report-" ++ timestamp (self w))
                     ++ ".json"
    /\ md_path = (OUTPUT_DIR ++ "/api-test-report-" ++ timestamp (self w))
                   ++ ".md"
    /\ generate_report w
       = ({| self := self w; clock := clock w; ticks := ticks w;
             net := net w; sent := sent w;
             disk :=
               List.app (disk w)
                 [(json_path,
                   ReportJson (timestamp (self w))
                     (pass_count (self w) + fail_count (self w))
                     (pass_count (self w)) (fail_count (self w)) rate
                     (map snippet (results (self w))));
                  (md_path,
                   ReportMarkdown
                     (pass_count (self w) + fail_count (self w))
                     (pass_count (self w)) (fail_count (self w)) rate
                     (fail_count (self w) =? 0)%nat
                     (map row_of (results (self w))))] |},
          Ret (fail_count (self w) =? 0)%nat).
Proof.
  eexists. eexists. eexists.
  split; [apply success_rate_returns|].
  split; [reflexivity|]. split; [reflexivity|].
  unfold generate_report, generate_markdown_report, bind, get, lift,
    write_file, modify, ret.
  cbn [self clock ticks net sent disk].
  rewrite !success_rate_returns, <- !app_assoc, !append_assoc.
  reflexivity.
Qed.


(** C6.  [run_test] numbers the tests 1, 2, 3, ... in invocation order.
    Starting from a suite whose [test_num] is the length of [results] and
    whose k-th result carries number k (as the fresh suite does), every
    returning call keeps that, and a run of calls with methods [run_test]
    knows returns with [test_num] advanced by the number of calls.  The
    suite's own calls are such a run: after each of its 32 tests, whatever
    the server and the clock do, [test_num] is the number of tests run so
    far and the number of results recorded, and the k-th result carries
    number k. *)
Theorem tests_numbered_in_invocation_order :
  (forall now, numbered (TestSuite_init now))
  /\ (forall cs w,
         Forall (fun c => supported (method c) = true) cs ->
         numbered (self w) ->
         exists w',
           run_tests cs w = (w', Ret tt)
           /\ numbered (self w')
           /\ test_num (self w') = test_num (self w) + List.length cs)
  /\ (forall now clock net k,
         k <= List.length issued ->
         exists wk,
           run_tests (firstn k issued) (fresh now clock net) = (wk, Ret tt)
           /\ test_num (self wk) = k
           /\ List.length (results (self wk)) = k
           /\ forall j r,
               nth_error (results (self wk)) j = Some r ->
               TestResult.test_num r = S j).
Proof.
  assert (Hinit : forall now, numbered (TestSuite_init now)).
  { intros now. split; [reflexivity|]. intros [|k] r H; discriminate. }
  assert (Hrun : forall cs w,
             Forall (fun c => supported (method c) = true) cs ->
             numbered (self w) ->
             exists w',
               run_tests cs w = (w', Ret tt)
               /\ numbered (self w')
               /\ test_num (self w') = test_num (self w) + List.length cs).
  { intros cs w Hcs Hn.
    exists (fold_left (fun w c => world_after c w) cs w).
    split; [now apply run_tests_eq|]. now apply numbered_run. }
  split; [exact Hinit|]. split; [exact Hrun|].
  intros now clock net k Hk.
  destruct (Hrun (firstn k issued) (fresh now clock net)
              (Forall_firstn _ k _ issued_supported) (Hinit now))
    as (wk & E & [Hn Hj] & Hlen).
  exists wk. split; [exact E|].
  rewrite length_firstn, Nat.min_l in Hlen by exact Hk. cbn in Hlen.
  split; [exact Hlen|]. split; [now rewrite <- Hn|exact Hj].
Qed.

(** C7 fails in one case.  With a server nobody can reach and a clock
    whose readings do not change, no sample is collected, the average is
    taken as 0, and [run_performance_tests] raises [ZeroDivisionError]
    while formatting the requests-per-second line: neither [pass_count]
    nor [fail_count] moves. *)
Theorem performance_test_stalls_on_zero_total_time :
  measured stalled_world = ([], 0%Q)
  /\ average (fst (measured stalled_world)) = Ret 0%Q
  /\ snd (run_performance_tests stalled_world)
     = Raise (ZeroDivisionError "division by zero")
  /\ pass_count (self (fst (run_performance_tests stalled_world))) = 0
  /\ fail_count (self (fst (run_performance_tests stalled_world))) = 0.
Proof. repeat split; vm_compute; reflexivity. Qed.



(** C9.  [generate_report] returns whether [fail_count] is 0 when the report
    is written, and [main] ends with [sys.exit(0 if success else 1)] on
    that value: the exit status is 0 exactly when [fail_count] is 0 at
    report time, and 1 otherwise.  [main] reaches these two statements
    with the world its three test phases leave. *)
Theorem exit_code_reflects_failures (w : World) :
  (exists w', generate_report w = (w', Ret (fail_count (self w) =? 0)%nat))
  /\ (exit_status (snd (report_and_exit w)) = 0%Z <-> fail_count (self w) = 0)
  /\ (exit_status (snd (report_and_exit w)) = 1%Z <-> fail_count (self w) <> 0)
  /\ (forall w0,
         bind run_api_tests
           (fun _ => bind run_security_tests (fun _ => run_performance_tests))
           w0
         = (w, Ret tt) ->
         main w0 = report_and_exit w).
Proof.
  destruct (generate_report_eq w) as (rate & jp & mp & _ & _ & _ & E).
  split; [eexists; exact E|].
  assert (Hmain : forall w0,
             bind run_api_tests
               (fun _ =>
                  bind run_security_tests (fun _ => run_performance_tests))
               w0
             = (w, Ret tt) ->
             main w0 = report_and_exit w).
  { intros w0 Hw0. unfold main. now rewrite Hw0. }
  assert (Hexit : exit_status (snd (report_and_exit w))
                  = if (fail_count (self w) =? 0)%nat then 0%Z else 1%Z).
  { unfold report_and_exit. rewrite E. cbn [snd exit_status].
    now destruct (fail_count (self w) =? 0)%nat. }
  rewrite Hexit.
  destruct (Nat.eqb_spec (fail_count (self w)) 0) as [H0|H0].
  - split; [tauto|]. split; [split; [discriminate|tauto]|exact Hmain].
  - split; [split; [discriminate|tauto]|]. split; [tauto|exact Hmain].
Qed.


(** The report files of the API suite: one JSON and one Markdown file. *)
Lemma api_report_formats (w : World) :
  snd (generate_report w) = Ret (fail_count (self w) =? 0)%nat
  /\ formats (written w (fst (generate_report w)))
     = [Some JSON; Some Markdown].
Proof.
  destruct (generate_report_eq w) as (rate & jp & mp & _ & Hj & Hm & E).
  rewrite E. cbn [fst snd]. split; [reflexivity|].
  erewrite written_app by (cbn [disk]; reflexivity).
  unfold formats. cbn [map fst].
  now rewrite Hj, Hm, format_json, format_md.
Qed.

Lemma tests_numbered_witness :
  exists wk,
    run_tests (firstn 32 issued)
      (fresh "20250101_120000" ticking_clock gated_server)
    = (wk, Ret tt)
    /\ test_num (self wk) = 32
    /\ List.length (results (self wk)) = 32
    /\ forall j r,
        nth_error (results (self wk)) j = Some r ->
        TestResult.test_num r = S j.
Proof.
  apply (proj2 (proj2 tests_numbered_in_invocation_order)
           "20250101_120000" ticking_clock gated_server 32).
  simpl. lia.
Defined.

Lemma exit_code_witness :
  main sample_world
  = report_and_exit
      (fst (bind run_api_tests
              (fun _ =>
                 bind run_security_tests (fun _ => run_performance_tests))
              sample_world)).
Proof.
  apply (proj2 (proj2 (proj2 (exit_code_reflects_failures _)))).
  vm_compute. reflexivity.
Defined.


End ApiFacts.

(* ===================================================================== *)
(** ** Properties kept by monadic code *)
(* ===================================================================== *)

Module HoareFacts.
Import Py Hoare.

Section Keeps.
Context {W : Type} (P : W -> Prop).

Lemma keeps_ret {A : Type} (a : A) : keeps P (ret a).
Proof. intros w H. exact H. Qed.

Lemma keeps_raise {A : Type} (e : exn) : keeps P (@raise W A e).
Proof. intros w H. exact H. Qed.

Lemma keeps_lift {A : Type} (o : outcome A) : keeps P (lift o).
Proof. intros w H. exact H. Qed.

Lemma keeps_get : keeps P (@get W).
Proof. intros w H. exact H. Qed.

Lemma keeps_modify (f : W -> W) :
  (forall w, P w -> P (f w)) -> keeps P (modify f).
Proof. intros Hf w H. now apply Hf. Qed.

Lemma keeps_bind {A B : Type} (m : M W A) (k : A -> M W B) :
  keeps P m -> (forall a, keeps P (k a)) -> keeps P (bind m k).
Proof.
  intros Hm Hk w H. unfold bind.
  specialize (Hm w H). destruct (m w) as [w1 [a|e]]; cbn in *.
  - now apply Hk.
  - exact Hm.
Qed.

Lemma keeps_try_except {A : Type} (m : M W A) (h : exn -> M W A) :
  keeps P m -> (forall e, keeps P (h e)) ->
  keeps P (try_except m (fun e => Some (h e))).
Proof.
  intros Hm Hh w H. unfold try_except.
  specialize (Hm w H). destruct (m w) as [w1 [a|e]]; cbn in *.
  - exact Hm.
  - now apply Hh.
Qed.

Lemma keeps_try_finally {A : Type} (m : M W A) (f : M W unit) :
  keeps P m -> keeps P f -> keeps P (try_finally m f).
Proof.
  intros Hm Hf w H. unfold try_finally.
  specialize (Hm w H). destruct (m w) as [w1 r]; cbn in *.
  specialize (Hf w1 Hm). now destruct (f w1) as [w2 [[]|e]].
Qed.

Lemma keeps_for_each {A : Type} (xs : list A) (body : A -> M W unit) :
  (forall x, keeps P (body x)) -> keeps P (for_each xs body).
Proof.
  intros Hb. induction xs as [|x xs IH]; simpl.
  - apply keeps_ret.
  - apply keeps_bind; [apply Hb|intros _; exact IH].
Qed.

Lemma keeps_if {A : Type} (b : bool) (m1 m2 : M W A) :
  keeps P m1 -> keeps P m2 -> keeps P (if b then m1 else m2).
Proof. now destruct b. Qed.

End Keeps.

End HoareFacts.

(* ===================================================================== *)
(** ** The synchronous browser suite: facts *)
(* ===================================================================== *)

Module SeleniumFacts.
Import Py Hoare HoareFacts Selenium SeleniumSpec PyFacts.

(** *** [log_test] *)

Lemma sel_log_test_eq (name : string) (st : status_literal)
  (details evidence : string) (w : World) :
  log_test name (status_str st) details evidence w
  = (logged name st details evidence w, Ret tt).
Proof. destruct st; reflexivity. Qed.

Lemma sel_tally_logged (name : string) (st : status_literal)
  (details evidence : string) (w : World) :
  tally_ok (test_results w) ->
  tally_ok (test_results (logged name st details evidence w)).
Proof.
  unfold tally_ok. intros [H1 H2]. cbn. rewrite length_app. cbn.
  destruct st; lia.
Qed.

Lemma sel_tally_loaded (o : oracle) : tally_ok (test_results (loaded o)).
Proof. split; reflexivity. Qed.

(** *** The tally through a whole run *)

Lemma sel_keeps_log_test (name : string) (st : status_literal)
  (details evidence : string) :
  keeps tallied_world (log_test name (status_str st) details evidence).
Proof.
  intros w H. rewrite sel_log_test_eq. cbn [fst]. now apply sel_tally_logged.
Qed.

Lemma sel_keeps_pass (name details evidence : string) :
  keeps tallied_world (log_test name "PASS" details evidence).
Proof. exact (sel_keeps_log_test name PASS details evidence). Qed.

Lemma sel_keeps_fail (name details evidence : string) :
  keeps tallied_world (log_test name "FAIL" details evidence).
Proof. exact (sel_keeps_log_test name FAIL details evidence). Qed.

Lemma sel_keeps_warn (name details evidence : string) :
  keeps tallied_world (log_test name "WARN" details evidence).
Proof. exact (sel_keeps_log_test name WARN details evidence). Qed.

(** Code that leaves the summary and the test list alone keeps the tally. *)
Lemma sel_keeps_untouched {A : Type} (m : M World A) :
  (forall w, summary (test_results (fst (m w))) = summary (test_results w)
             /\ tests (test_results (fst (m w))) = tests (test_results w)) ->
  keeps tallied_world m.
Proof.
  intros Hm w [H1 H2]. destruct (Hm w) as [Es Et].
  unfold tallied_world, tally_ok. now rewrite Es, Et.
Qed.

Lemma sel_keeps_enter (f : Fn.t) : keeps tallied_world (enter f).
Proof. apply sel_keeps_untouched. now intros w. Qed.

Lemma sel_keeps_write_file (path : string) (c : content) :
  keeps tallied_world (write_file path c).
Proof. apply sel_keeps_untouched. now intros w. Qed.

Lemma sel_keeps_setup_driver : keeps tallied_world setup_driver.
Proof. apply sel_keeps_untouched. now intros w. Qed.

Lemma sel_keeps_driver_quit : keeps tallied_world driver_quit.
Proof. apply sel_keeps_untouched. now intros w. Qed.

Lemma sel_keeps_take_screenshot (name viewport : string) :
  keeps tallied_world (take_screenshot name viewport).
Proof.
  apply sel_keeps_untouched. intros w.
  unfold take_screenshot, bind, get, lift, modify, ret.
  now destruct (save_screenshot (env w) name viewport).
Qed.

Create HintDb tally.

#[local] Hint Resolve keeps_ret keeps_raise keeps_lift keeps_get
  keeps_bind keeps_try_except keeps_try_finally keeps_for_each keeps_if
  sel_keeps_log_test sel_keeps_pass sel_keeps_fail sel_keeps_warn sel_keeps_enter
  sel_keeps_write_file sel_keeps_setup_driver sel_keeps_driver_quit
  sel_keeps_take_screenshot : tally.

Lemma sel_keeps_apply_effect (e : effect) : keeps tallied_world (apply_effect e).
Proof.
  destruct e; cbn [apply_effect]; auto with tally;
    apply sel_keeps_untouched; now intros w.
Qed.

#[local] Hint Resolve sel_keeps_apply_effect : tally.

Lemma sel_keeps_drive (f : Fn.t) : keeps tallied_world (drive f).
Proof. unfold drive. auto 10 with tally. Qed.

Lemma sel_keeps_run_accessibility_check (page_name viewport : string) :
  keeps tallied_world (run_accessibility_check page_name viewport).
Proof.
  unfold run_accessibility_check.
  apply keeps_bind; [auto with tally|intros _].
  apply keeps_try_except; [|auto with tally].
  apply keeps_bind; [auto with tally|intros w0].
  apply keeps_bind; [auto with tally|intros violations].
  apply keeps_bind; [apply sel_keeps_untouched; now intros w|intros _].
  auto 10 with tally.
Qed.

Lemma sel_keeps_test_health_check : keeps tallied_world test_health_check.
Proof. unfold test_health_check. auto 10 with tally. Qed.

Lemma sel_keeps_test_protected_routes :
  keeps tallied_world test_protected_routes.
Proof. unfold test_protected_routes. auto 12 with tally. Qed.

#[local] Hint Resolve sel_keeps_drive sel_keeps_run_accessibility_check
  sel_keeps_test_health_check sel_keeps_test_protected_routes : tally.

Lemma sel_keeps_test_responsive_design :
  keeps tallied_world test_responsive_design.
Proof. unfold test_responsive_design. auto 20 with tally. Qed.

Lemma sel_keeps_generate_report : keeps tallied_world generate_report.
Proof.
  unfold generate_report.
  apply keeps_bind; [auto with tally|intros _].
  apply keeps_bind; [auto with tally|intros w0].
  apply keeps_bind; [|intros _; auto 10 with tally].
  apply keeps_modify. intros w H. exact H.
Qed.

#[local] Hint Resolve sel_keeps_test_responsive_design sel_keeps_generate_report
  : tally.

Lemma sel_keeps_main : keeps tallied_world main.
Proof.
  unfold main, test_signup, test_signin, test_dashboard, test_create_note,
    test_flashcard_creation, test_version_history, test_notes_list,
    test_search_page.
  auto 30 with tally.
Qed.

Lemma sel_tally_script (o : oracle) :
  tally_ok (test_results (fst (script (loaded o)))).
Proof.
  unfold script.
  pose proof (sel_keeps_main (loaded o) (sel_tally_loaded o)) as Hm.
  destruct (main (loaded o)) as [w1 [[]|e]]; cbn [fst] in *.
  - exact Hm.
  - pose proof (sel_keeps_generate_report w1 Hm) as Hg.
    now destruct (generate_report w1) as [w2 [[]|e']].
Qed.

(** *** The verdict and the report files *)

Lemma sel_final_verdict_cases (failed warnings : nat) :
  (5 < failed /\ final_verdict failed warnings = "FAIL - NEEDS MAJOR FIXES")
  \/ (1 <= failed <= 5
      /\ final_verdict failed warnings = "WARN - NEEDS FIXES")
  \/ (failed = 0 /\ 10 < warnings
      /\ final_verdict failed warnings = "WARN - REVIEW WARNINGS")
  \/ (failed = 0 /\ warnings <= 10
      /\ final_verdict failed warnings = "PASS - READY TO DEPLOY").
Proof.
  unfold final_verdict.
  destruct (Nat.ltb_spec 5 failed); [now left|right].
  destruct (Nat.ltb_spec 0 failed); [left; split; [lia|reflexivity]|right].
  destruct (Nat.ltb_spec 10 warnings);
    [left|right]; (split; [lia|split; [lia|reflexivity]]).
Qed.

Lemma sel_generate_report_eq (w : World) :
  exists w',
    generate_report w = (w', Ret tt)
    /\ env w' = env w
    /\ trace w' = List.app (trace w) [Fn.generate_report]
    /\ Summary.verdict (summary (test_results w'))
       = Some (final_verdict
                 (Summary.failed (summary (test_results w)))
                 (Summary.warnings (summary (test_results w))))
    /\ map fst (written w w')
       = [ARTIFACTS_DIR ++ "/qa-report.json";
          ARTIFACTS_DIR ++ "/qa-report.html"].
Proof.
  exists (fst (generate_report w)).
  split; [reflexivity|].
  split; [reflexivity|]. split; [reflexivity|]. split; [reflexivity|].
  unfold written.
  cbv beta iota zeta
    delta [generate_report bind enter modify get write_file ret fst snd
           disk].
  rewrite <- app_assoc, skipn_app, skipn_all, Nat.sub_diag. reflexivity.
Qed.

(** *** Functions that catch what they raise *)

Lemma sel_log_pass_eq (name details evidence : string) (w : World) :
  log_test name "PASS" details evidence w
  = (logged name PASS details evidence w, Ret tt).
Proof. reflexivity. Qed.

Lemma sel_log_fail_eq (name details evidence : string) (w : World) :
  log_test name "FAIL" details evidence w
  = (logged name FAIL details evidence w, Ret tt).
Proof. reflexivity. Qed.

Lemma sel_log_warn_eq (name details evidence : string) (w : World) :
  log_test name "WARN" details evidence w
  = (logged name WARN details evidence w, Ret tt).
Proof. reflexivity. Qed.

Lemma sel_test_health_check_covers (o : oracle) :
  covers o test_health_check tt [Fn.test_health_check].
Proof.
  intros w Ho.
  unfold test_health_check, bind, enter, modify, try_except, get, lift.
  cbn [env]. destruct (health (env w)) as [code|e].
  - destruct (code =? 200)%Z; [rewrite sel_log_pass_eq|rewrite sel_log_fail_eq];
      eexists; repeat split; exact Ho.
  - rewrite sel_log_fail_eq. eexists. repeat split. exact Ho.
Qed.

Lemma sel_run_accessibility_check_covers (o : oracle)
  (page_name viewport : string) :
  covers o (run_accessibility_check page_name viewport) tt
    [Fn.run_accessibility_check].
Proof.
  intros w Ho.
  unfold run_accessibility_check, bind, enter, modify, try_except, get, lift.
  cbn [env]. destruct (axe (env w) page_name viewport) as [violations|e].
  - destruct (0 <? _)%nat;
      [rewrite sel_log_fail_eq
      |destruct (0 <? _)%nat; [rewrite sel_log_warn_eq|rewrite sel_log_pass_eq]];
      eexists; repeat split; exact Ho.
  - rewrite sel_log_warn_eq. eexists. repeat split. exact Ho.
Qed.

(** [test_protected_routes] once its driver has started and can quit: the
    visit is judged, or its exception is logged as a failure. *)
Lemma sel_test_protected_routes_guarded (w : World) :
  driver_starts (env w) (started w) = Ret tt ->
  driver_quits (env w) (quits w) = Ret tt ->
  exists w' st details,
    test_protected_routes w = (w', Ret tt)
    /\ env w' = env w
    /\ trace w' = List.app (trace w) [Fn.test_protected_routes]
    /\ tests (test_results w')
       = List.app (tests (test_results w))
           [Entry.mk "Protected route redirect" (status_str st) details ""
              (now (env w) (reads w))]
    /\ (st = PASS \/ st = FAIL)
    /\ (forall e, unauth_visit (env w) = Raise e ->
        st = FAIL /\ details = "Exception: " ++ str_of_exn e).
Proof.
  intros Hstart Hquit.
  unfold test_protected_routes, bind, enter, modify, setup_driver,
    try_finally, try_except, get, lift, driver_quit.
  cbn [env started quits fst snd]. rewrite Hstart.
  destruct (unauth_visit (env w)) as [current_url|e].
  - destruct (contains "/auth/signin" current_url);
      [rewrite sel_log_pass_eq|rewrite sel_log_fail_eq];
      cbn [logged env quits]; rewrite Hquit;
      eexists; eexists; eexists;
      (split; [reflexivity|]); repeat split; auto; discriminate.
  - rewrite sel_log_fail_eq. cbn [logged env quits]. rewrite Hquit.
    eexists. exists FAIL, ("Exception: " ++ str_of_exn e).
    split; [reflexivity|]. split; [reflexivity|]. split; [reflexivity|].
    split; [reflexivity|]. split; [now right|].
    intros e' He'. injection He' as <-. split; reflexivity.
Qed.



(** *** A run with a cooperative browser *)

Lemma sel_covers_ret {A : Type} (o : oracle) (v : A) : covers o (ret v) v [].
Proof.
  intros w Ho. exists w. rewrite app_nil_r. repeat split. exact Ho.
Qed.

Lemma sel_covers_bind {A B : Type} (o : oracle) (m : M World A)
  (k : A -> M World B) (a : A) (b : B) (t1 t2 ts : list Fn.t) :
  covers o m a t1 -> covers o (k a) b t2 -> ts = List.app t1 t2 ->
  covers o (bind m k) b ts.
Proof.
  intros Hm Hk -> w Ho.
  destruct (Hm w Ho) as (w1 & E1 & Ho1 & T1).
  destruct (Hk w1 Ho1) as (w2 & E2 & Ho2 & T2).
  exists w2. unfold bind. rewrite E1, E2, T2, T1, app_assoc.
  repeat split. exact Ho2.
Qed.

(** One more statement of a sequence: [tac] covers the statement, the rest
    of the sequence stays to be covered. *)
Ltac then_sel tac := eapply sel_covers_bind; [tac| |reflexivity].

Lemma sel_covers_try_except {A : Type} (o : oracle) (m : M World A)
  (h : exn -> option (M World A)) (a : A) (ts : list Fn.t) :
  covers o m a ts -> covers o (try_except m h) a ts.
Proof.
  intros Hm w Ho. destruct (Hm w Ho) as (w1 & E1 & Ho1 & T1).
  exists w1. unfold try_except. rewrite E1. repeat split; assumption.
Qed.

Lemma sel_covers_try_finally {A : Type} (o : oracle) (m : M World A)
  (f : M World unit) (a : A) (t1 t2 ts : list Fn.t) :
  covers o m a t1 -> covers o f tt t2 -> ts = List.app t1 t2 ->
  covers o (try_finally m f) a ts.
Proof.
  intros Hm Hf -> w Ho.
  destruct (Hm w Ho) as (w1 & E1 & Ho1 & T1).
  destruct (Hf w1 Ho1) as (w2 & E2 & Ho2 & T2).
  exists w2. unfold try_finally. rewrite E1, E2, T2, T1, app_assoc.
  repeat split. exact Ho2.
Qed.

Lemma sel_covers_log (o : oracle) (name : string) (st : status_literal)
  (details evidence : string) :
  covers o (log_test name (status_str st) details evidence) tt [].
Proof.
  intros w Ho. rewrite sel_log_test_eq. eexists. split; [reflexivity|].
  cbn [logged env trace]. rewrite app_nil_r. split; [exact Ho|reflexivity].
Qed.

Lemma sel_covers_enter (o : oracle) (f : Fn.t) : covers o (enter f) tt [f].
Proof. intros w Ho. eexists. repeat split. exact Ho. Qed.

Lemma sel_covers_setup_driver (o : oracle) :
  (forall k, driver_starts o k = Ret tt) -> covers o setup_driver tt [].
Proof.
  intros H w Ho. unfold setup_driver. rewrite Ho, H. eexists.
  split; [reflexivity|]. cbn [env trace]. rewrite app_nil_r. now split.
Qed.

Lemma sel_covers_driver_quit (o : oracle) :
  (forall k, driver_quits o k = Ret tt) -> covers o driver_quit tt [].
Proof.
  intros H w Ho. unfold driver_quit. rewrite Ho, H. eexists.
  split; [reflexivity|]. cbn [env trace]. rewrite app_nil_r. now split.
Qed.

Lemma sel_effects_frame (effs : list effect) (w : World) :
  exists w',
    for_each effs apply_effect w = (w', Ret tt)
    /\ env w' = env w /\ trace w' = trace w.
Proof.
  revert w. induction effs as [|e effs IH]; intros w.
  - exists w. repeat split.
  - assert (He : exists w1, apply_effect e w = (w1, Ret tt)
                            /\ env w1 = env w /\ trace w1 = trace w).
    { destruct e; cbn [apply_effect].
      - rewrite sel_log_test_eq. eexists. repeat split.
      - eexists. repeat split.
      - eexists. repeat split.
      - eexists. repeat split. }
    destruct He as (w1 & E1 & Ho1 & T1).
    destruct (IH w1) as (w2 & E2 & Ho2 & T2).
    exists w2. cbn [for_each]. unfold bind. rewrite E1, E2.
    repeat split; congruence.
Qed.

Lemma sel_covers_drive (o : oracle) (f : Fn.t) (v : pyval) :
  result (phase o f) = Ret v -> covers o (drive f) v [f].
Proof.
  intros Hv w Ho. unfold drive, bind, enter, modify, get, lift.
  cbn [env].
  destruct (sel_effects_frame (effects (phase (env w) f))
              {| test_results := test_results w; disk := disk w;
                 trace := List.app (trace w) [f]; reads := reads w;
                 started := started w; quits := quits w; env := env w |})
    as (w1 & E1 & Ho1 & T1).
  rewrite E1. exists w1. cbn [env trace] in *. rewrite Ho, Hv.
  repeat split; congruence.
Qed.

Lemma sel_covers_test_protected_routes (o : oracle) :
  (forall k, driver_starts o k = Ret tt) ->
  (forall k, driver_quits o k = Ret tt) ->
  covers o test_protected_routes tt [Fn.test_protected_routes].
Proof.
  intros Hs Hq w Ho.
  destruct (sel_test_protected_routes_guarded w) as (w' & st & d & E & He & Ht & _).
  - rewrite Ho. apply Hs.
  - rewrite Ho. apply Hq.
  - exists w'. repeat split; congruence.
Qed.

Lemma sel_covers_generate_report (o : oracle) :
  covers o generate_report tt [Fn.generate_report].
Proof.
  intros w Ho. destruct (sel_generate_report_eq w) as (w' & E & He & Ht & _).
  exists w'. repeat split; congruence.
Qed.

Lemma sel_covers_take_screenshot (o : oracle) (name viewport : string) :
  returns (save_screenshot o name viewport) = true ->
  exists path, covers o (take_screenshot name viewport) path [].
Proof.
  intros H. destruct (save_screenshot o name viewport) as [path|e] eqn:E;
    [|discriminate].
  exists path. intros w Ho.
  unfold take_screenshot, bind, get, lift, modify, ret. rewrite Ho, E.
  eexists. split; [reflexivity|]. cbn [env trace with_results].
  rewrite app_nil_r. now split.
Qed.

Lemma sel_covers_hamburger (o : oracle) (viewport : viewport) :
  covers o
    (if (width viewport <? 768)%nat then
       try_except
         (bind (lift (hamburger o viewport))
            (fun _ =>
               log_test
                 ("Mobile hamburger menu (" ++ vp_name viewport ++ ")")
                 "PASS" "Hamburger menu found" ""))
         (fun _ =>
            Some (log_test
                    ("Mobile hamburger menu (" ++ vp_name viewport ++ ")")
                    "WARN" "Hamburger menu not found on mobile viewport"
                    ""))
     else ret tt) tt [].
Proof.
  destruct (width viewport <? 768)%nat; [|apply sel_covers_ret].
  intros w Ho. unfold try_except, bind, lift.
  destruct (hamburger o viewport) as [[]|e];
    [rewrite sel_log_pass_eq|rewrite sel_log_warn_eq];
    eexists; (split; [reflexivity|]); cbn [logged env trace];
    rewrite app_nil_r; now split.
Qed.

Lemma sel_covers_with_env {B : Type} (o : oracle) (k : World -> M World B)
  (b : B) (ts : list Fn.t) :
  (forall w0, env w0 = o -> covers o (k w0) b ts) ->
  covers o (bind get k) b ts.
Proof. intros H w Ho. unfold bind, get. exact (H w Ho w Ho). Qed.

(** One round of the loop of [test_responsive_design]. *)
Lemma sel_covers_viewport_round (o : oracle) (body : viewport -> M World unit)
  (viewport : viewport) :
  cooperative o ->
  body
  = (fun viewport =>
       bind setup_driver (fun _ =>
         try_finally
           (try_except
              (bind get (fun w =>
                 bind (lift (responsive_load (env w) viewport)) (fun _ =>
                 bind (take_screenshot "dashboard" (vp_name viewport))
                   (fun _ =>
                 bind
                   (if (width viewport <? 768)%nat then
                      try_except
                        (bind (lift (hamburger (env w) viewport))
                           (fun _ =>
                              log_test
                                ("Mobile hamburger menu ("
                                   ++ vp_name viewport ++ ")")
                                "PASS" "Hamburger menu found" ""))
                        (fun _ =>
                           Some (log_test
                                   ("Mobile hamburger menu ("
                                      ++ vp_name viewport ++ ")")
                                   "WARN"
                                   "Hamburger menu not found on mobile viewport"
                                   ""))
                    else ret tt) (fun _ =>
                 bind (run_accessibility_check "dashboard"
                         (vp_name viewport)) (fun _ =>
                 log_test ("Responsive test (" ++ vp_name viewport ++ ")")
                   "PASS"
                   ("Tested at " ++ str_of_nat (width viewport) ++ "x"
                      ++ str_of_nat (height viewport)) ""))))))
              (fun e =>
                 Some (log_test
                         ("Responsive test (" ++ vp_name viewport ++ ")")
                         "FAIL" ("Exception: " ++ str_of_exn e) "")))
           driver_quit)) ->
  covers o (body viewport) tt [Fn.run_accessibility_check].
Proof.
  intros (Hs & Hq & Hload & Hshot & _) ->.
  destruct (sel_covers_take_screenshot o "dashboard" (vp_name viewport)
              (Hshot _ _)) as (path & Hpath).
  then_sel ltac:(apply sel_covers_setup_driver, Hs).
  eapply sel_covers_try_finally;
    [|apply sel_covers_driver_quit, Hq|symmetry; apply app_nil_r].
  apply sel_covers_try_except, sel_covers_with_env. intros w0 Ho0.
  rewrite Ho0, Hload.
  then_sel ltac:(apply (sel_covers_ret o tt)).
  then_sel ltac:(exact Hpath).
  then_sel ltac:(apply sel_covers_hamburger).
  eapply sel_covers_bind;
    [apply sel_run_accessibility_check_covers
    |apply (sel_covers_log o _ PASS)|reflexivity].
Qed.

Lemma sel_covers_test_responsive_design (o : oracle) :
  cooperative o ->
  covers o test_responsive_design tt
    [Fn.test_responsive_design; Fn.run_accessibility_check;
     Fn.run_accessibility_check; Fn.run_accessibility_check].
Proof.
  intros Hco. unfold test_responsive_design.
  then_sel ltac:(apply sel_covers_enter).
  cbn [firstn VIEWPORTS for_each].
  then_sel ltac:(apply (sel_covers_viewport_round o _ _ Hco eq_refl)).
  then_sel ltac:(apply (sel_covers_viewport_round o _ _ Hco eq_refl)).
  eapply sel_covers_bind;
    [apply (sel_covers_viewport_round o _ _ Hco eq_refl)
    |apply sel_covers_ret|reflexivity].
Qed.

Lemma sel_covers_main (o : oracle) :
  cooperative o -> covers o main tt full_trace.
Proof.
  intros Hco.
  pose proof (sel_covers_test_responsive_design o Hco) as Hresp.
  destruct Hco as (Hs & Hq & _ & _ & Hres & (vi & Hvi & Ti) & (vn & Hvn & Tn)).
  assert (Hdrive : forall f, exists v, covers o (drive f) v [f]).
  { intros f. specialize (Hres f).
    destruct (result (phase o f)) as [v|e] eqn:E; [|discriminate].
    exists v. now apply sel_covers_drive. }
  destruct (Hdrive Fn.test_signup) as (v1 & H1).
  destruct (Hdrive Fn.test_dashboard) as (v3 & H3).
  destruct (Hdrive Fn.test_flashcard_creation) as (v5 & H5).
  destruct (Hdrive Fn.test_version_history) as (v6 & H6).
  destruct (Hdrive Fn.test_notes_list) as (v7 & H7).
  destruct (Hdrive Fn.test_search_page) as (v8 & H8).
  unfold main, test_signup, test_signin, test_dashboard, test_create_note,
    test_flashcard_creation, test_version_history, test_notes_list,
    test_search_page.
  then_sel ltac:(apply sel_test_health_check_covers).
  then_sel ltac:(apply sel_covers_test_protected_routes; assumption).
  then_sel ltac:(apply sel_covers_setup_driver, Hs).
  eapply sel_covers_bind with (a := false)
    (t1 := [Fn.test_signup; Fn.test_signin; Fn.test_dashboard;
            Fn.test_create_note; Fn.test_flashcard_creation;
            Fn.test_version_history; Fn.test_notes_list;
            Fn.test_search_page]);
    [| |reflexivity].
  - eapply sel_covers_try_finally;
      [|apply sel_covers_driver_quit, Hq|symmetry; apply app_nil_r].
    then_sel ltac:(exact H1).
    then_sel ltac:(apply sel_covers_drive, Hvi).
    rewrite Ti. cbn [negb].
    then_sel ltac:(exact H3).
    then_sel ltac:(apply sel_covers_drive, Hvn).
    rewrite Tn.
    eapply sel_covers_bind with (a := tt)
      (t1 := [Fn.test_flashcard_creation; Fn.test_version_history]);
      [| |reflexivity].
    + then_sel ltac:(exact H5).
      eapply sel_covers_bind; [exact H6|apply sel_covers_ret|reflexivity].
    + then_sel ltac:(exact H7).
      eapply sel_covers_bind; [exact H8|apply sel_covers_ret|reflexivity].
  - cbn match.
    eapply sel_covers_bind;
      [exact Hresp|apply sel_covers_generate_report|reflexivity].
Qed.

(** Every journey is exercised by the run of a cooperative browser. *)
Lemma sel_cooperative_run (o : oracle) :
  cooperative o ->
  trace (fst (script (loaded o))) = full_trace
  /\ snd (script (loaded o)) = Exit 0
  /\ forall j, exercised j (fst (script (loaded o))) = true.
Proof.
  intros Hco.
  destruct (sel_covers_main o Hco (loaded o) eq_refl) as (w' & E & _ & T).
  unfold script. rewrite E. cbn [fst snd].
  assert (Ht : trace w' = full_trace) by (rewrite T; reflexivity).
  split; [exact Ht|]. split; [reflexivity|].
  intros j. unfold exercised. rewrite Ht. now destruct j.
Qed.

End SeleniumFacts.

(* ===================================================================== *)
(** ** The asynchronous browser suite: facts *)
(* ===================================================================== *)

Module PlaywrightFacts.
Import Py Hoare HoareFacts Playwright PlaywrightSpec PyFacts.

(** *** [log_test] *)

Lemma pw_log_test_eq (name : string) (st : status_literal)
  (details evidence : string) (w : World) :
  log_test name (status_str st) details evidence w
  = (logged name st details evidence w, Ret tt).
Proof. destruct st; reflexivity. Qed.

Lemma pw_log_pass_eq (name details evidence : string) (w : World) :
  log_test name "PASS" details evidence w
  = (logged name PASS details evidence w, Ret tt).
Proof. reflexivity. Qed.

Lemma pw_log_fail_eq (name details evidence : string) (w : World) :
  log_test name "FAIL" details evidence w
  = (logged name FAIL details evidence w, Ret tt).
Proof. reflexivity. Qed.

Lemma pw_tally_logged (name : string) (st : status_literal)
  (details evidence : string) (w : World) :
  tally_ok (test_results w) ->
  tally_ok (test_results (logged name st details evidence w)).
Proof.
  unfold tally_ok. intros [H1 H2]. cbn. rewrite length_app. cbn.
  destruct st; lia.
Qed.

Lemma pw_tally_loaded (o : oracle) : tally_ok (test_results (loaded o)).
Proof. split; reflexivity. Qed.

(** *** The tally through a whole run *)

Lemma pw_keeps_log_test (name : string) (st : status_literal)
  (details evidence : string) :
  keeps tallied_world (log_test name (status_str st) details evidence).
Proof.
  intros w H. rewrite pw_log_test_eq. cbn [fst]. now apply pw_tally_logged.
Qed.

Lemma pw_keeps_pass (name details evidence : string) :
  keeps tallied_world (log_test name "PASS" details evidence).
Proof. exact (pw_keeps_log_test name PASS details evidence). Qed.

Lemma pw_keeps_fail (name details evidence : string) :
  keeps tallied_world (log_test name "FAIL" details evidence).
Proof. exact (pw_keeps_log_test name FAIL details evidence). Qed.

Lemma pw_keeps_untouched {A : Type} (m : M World A) :
  (forall w, summary (test_results (fst (m w))) = summary (test_results w)
             /\ tests (test_results (fst (m w))) = tests (test_results w)) ->
  keeps tallied_world m.
Proof.
  intros Hm w [H1 H2]. destruct (Hm w) as [Es Et].
  unfold tallied_world, tally_ok. now rewrite Es, Et.
Qed.

Lemma pw_keeps_enter (f : Fn.t) : keeps tallied_world (enter f).
Proof. apply pw_keeps_untouched. now intros w. Qed.

Lemma pw_keeps_write_file (path : string) (c : content) :
  keeps tallied_world (write_file path c).
Proof. apply pw_keeps_untouched. now intros w. Qed.

Lemma pw_keeps_browser_close : keeps tallied_world browser_close.
Proof. apply pw_keeps_untouched. now intros w. Qed.

Create HintDb pw_tally.

#[local] Hint Resolve keeps_ret keeps_raise keeps_lift keeps_get
  keeps_bind keeps_try_except keeps_try_finally keeps_for_each keeps_if
  pw_keeps_log_test pw_keeps_pass pw_keeps_fail pw_keeps_enter
  pw_keeps_write_file pw_keeps_browser_close : pw_tally.

Lemma pw_keeps_apply_effect (e : effect) :
  keeps tallied_world (apply_effect e).
Proof.
  destruct e; cbn [apply_effect]; auto with pw_tally;
    apply pw_keeps_untouched; now intros w.
Qed.

#[local] Hint Resolve pw_keeps_apply_effect : pw_tally.

Lemma pw_keeps_drive (f : Fn.t) : keeps tallied_world (drive f).
Proof. unfold drive. auto 10 with pw_tally. Qed.

Lemma pw_keeps_test_health_check : keeps tallied_world test_health_check.
Proof. unfold test_health_check. auto 12 with pw_tally. Qed.

Lemma pw_keeps_test_protected_routes :
  keeps tallied_world test_protected_routes.
Proof. unfold test_protected_routes. auto 12 with pw_tally. Qed.

Lemma pw_keeps_generate_report : keeps tallied_world generate_report.
Proof.
  unfold generate_report.
  apply keeps_bind; [auto with pw_tally|intros _].
  apply keeps_bind; [auto with pw_tally|intros w0].
  apply keeps_bind; [|intros _; auto 10 with pw_tally].
  apply keeps_modify. intros w H. exact H.
Qed.

#[local] Hint Resolve pw_keeps_drive pw_keeps_test_health_check
  pw_keeps_test_protected_routes pw_keeps_generate_report : pw_tally.

Lemma pw_keeps_main : keeps tallied_world main.
Proof.
  unfold main, launch, test_signup, test_signin, test_dashboard,
    test_create_note, test_flashcard_creation, test_version_history,
    test_notes_list, test_search_page.
  auto 30 with pw_tally.
Qed.

Lemma pw_tally_script (o : oracle) :
  tally_ok (test_results (fst (script (loaded o)))).
Proof.
  unfold script.
  pose proof (pw_keeps_main (loaded o) (pw_tally_loaded o)) as Hm.
  destruct (main (loaded o)) as [w1 [[]|e]]; cbn [fst] in *.
  - exact Hm.
  - pose proof (pw_keeps_generate_report w1 Hm) as Hg.
    now destruct (generate_report w1) as [w2 [[]|e']].
Qed.

(** *** The verdict and the report files *)

Lemma pw_final_verdict_cases (failed warnings : nat) :
  (5 < failed /\ final_verdict failed warnings = "FAIL - NEEDS MAJOR FIXES")
  \/ (1 <= failed <= 5
      /\ final_verdict failed warnings = "WARN - NEEDS FIXES")
  \/ (failed = 0 /\ 10 < warnings
      /\ final_verdict failed warnings = "WARN - REVIEW WARNINGS")
  \/ (failed = 0 /\ warnings <= 10
      /\ final_verdict failed warnings = "PASS - READY TO DEPLOY").
Proof.
  unfold final_verdict.
  destruct (Nat.ltb_spec 5 failed); [now left|right].
  destruct (Nat.ltb_spec 0 failed); [left; split; [lia|reflexivity]|right].
  destruct (Nat.ltb_spec 10 warnings);
    [left|right]; (split; [lia|split; [lia|reflexivity]]).
Qed.

Lemma pw_generate_report_eq (w : World) :
  exists w',
    generate_report w = (w', Ret tt)
    /\ env w' = env w
    /\ trace w' = List.app (trace w) [Fn.generate_report]
    /\ Summary.verdict (summary (test_results w'))
       = Some (final_verdict
                 (Summary.failed (summary (test_results w)))
                 (Summary.warnings (summary (test_results w))))
    /\ map fst (written w w')
       = [ARTIFACTS_DIR ++ "/qa-report.json";
          ARTIFACTS_DIR ++ "/qa-report.html"].
Proof.
  exists (fst (generate_report w)).
  split; [reflexivity|].
  split; [reflexivity|]. split; [reflexivity|]. split; [reflexivity|].
  unfold written.
  cbv beta iota zeta
    delta [generate_report bind enter modify get write_file ret fst snd
           disk].
  rewrite <- app_assoc, skipn_app, skipn_all, Nat.sub_diag. reflexivity.
Qed.

(** *** Functions that catch what they raise *)

(** The whole body of [test_protected_routes] is inside its [try]. *)
Lemma pw_test_protected_routes_returns (w : World) :
  exists w' st details,
    test_protected_routes w = (w', Ret tt)
    /\ env w' = env w
    /\ trace w' = List.app (trace w) [Fn.test_protected_routes]
    /\ tests (test_results w')
       = List.app (tests (test_results w))
           [Entry.mk "Protected route redirect" (status_str st) details ""
              (now (env w) (reads w))]
    /\ (st = PASS \/ st = FAIL)
    /\ (forall e, unauth_visit (env w) = Raise e ->
        st = FAIL /\ details = "Exception: " ++ str_of_exn e).
Proof.
  unfold test_protected_routes, bind, enter, modify, try_except, get, lift.
  cbn [env fst snd].
  destruct (unauth_visit (env w)) as [current_url|e].
  - destruct (contains "/auth/signin" current_url);
      [rewrite pw_log_pass_eq|rewrite pw_log_fail_eq];
      eexists; eexists; eexists;
      (split; [reflexivity|]); repeat split; auto; discriminate.
  - rewrite pw_log_fail_eq.
    eexists. exists FAIL, ("Exception: " ++ str_of_exn e).
    split; [reflexivity|]. split; [reflexivity|]. split; [reflexivity|].
    split; [reflexivity|]. split; [now right|].
    intros e' He'. injection He' as <-. split; reflexivity.
Qed.

(** *** A run with a cooperative browser *)

Lemma pw_covers_ret {A : Type} (o : oracle) (v : A) : covers o (ret v) v [].
Proof.
  intros w Ho. exists w. rewrite app_nil_r. repeat split. exact Ho.
Qed.

Lemma pw_covers_bind {A B : Type} (o : oracle) (m : M World A)
  (k : A -> M World B) (a : A) (b : B) (t1 t2 ts : list Fn.t) :
  covers o m a t1 -> covers o (k a) b t2 -> ts = List.app t1 t2 ->
  covers o (bind m k) b ts.
Proof.
  intros Hm Hk -> w Ho.
  destruct (Hm w Ho) as (w1 & E1 & Ho1 & T1).
  destruct (Hk w1 Ho1) as (w2 & E2 & Ho2 & T2).
  exists w2. unfold bind. rewrite E1, E2, T2, T1, app_assoc.
  repeat split. exact Ho2.
Qed.

Ltac then_pw tac := eapply pw_covers_bind; [tac| |reflexivity].

Lemma pw_covers_try_except {A : Type} (o : oracle) (m : M World A)
  (h : exn -> option (M World A)) (a : A) (ts : list Fn.t) :
  covers o m a ts -> covers o (try_except m h) a ts.
Proof.
  intros Hm w Ho. destruct (Hm w Ho) as (w1 & E1 & Ho1 & T1).
  exists w1. unfold try_except. rewrite E1. repeat split; assumption.
Qed.

Lemma pw_covers_try_finally {A : Type} (o : oracle) (m : M World A)
  (f : M World unit) (a : A) (t1 t2 ts : list Fn.t) :
  covers o m a t1 -> covers o f tt t2 -> ts = List.app t1 t2 ->
  covers o (try_finally m f) a ts.
Proof.
  intros Hm Hf -> w Ho.
  destruct (Hm w Ho) as (w1 & E1 & Ho1 & T1).
  destruct (Hf w1 Ho1) as (w2 & E2 & Ho2 & T2).
  exists w2. unfold try_finally. rewrite E1, E2, T2, T1, app_assoc.
  repeat split. exact Ho2.
Qed.

Lemma pw_covers_browser_close (o : oracle) :
  (forall k, browser_closes o k = Ret tt) -> covers o browser_close tt [].
Proof.
  intros H w Ho. unfold browser_close. rewrite Ho, H. eexists.
  split; [reflexivity|]. cbn [env trace]. rewrite app_nil_r. now split.
Qed.

Lemma pw_covers_launch (o : oracle) :
  launch_browser o = Ret tt -> covers o launch tt [].
Proof.
  intros H w Ho. unfold launch, bind, get, lift. rewrite Ho, H.
  exists w. rewrite app_nil_r. now repeat split.
Qed.

Lemma pw_effects_frame (effs : list effect) (w : World) :
  exists w',
    for_each effs apply_effect w = (w', Ret tt)
    /\ env w' = env w /\ trace w' = trace w.
Proof.
  revert w. induction effs as [|e effs IH]; intros w.
  - exists w. repeat split.
  - assert (He : exists w1, apply_effect e w = (w1, Ret tt)
                            /\ env w1 = env w /\ trace w1 = trace w).
    { destruct e; cbn [apply_effect].
      - rewrite pw_log_test_eq. eexists. repeat split.
      - eexists. repeat split.
      - eexists. repeat split. }
    destruct He as (w1 & E1 & Ho1 & T1).
    destruct (IH w1) as (w2 & E2 & Ho2 & T2).
    exists w2. cbn [for_each]. unfold bind. rewrite E1, E2.
    repeat split; congruence.
Qed.

Lemma pw_covers_drive (o : oracle) (f : Fn.t) (v : pyval) :
  result (phase o f) = Ret v -> covers o (drive f) v [f].
Proof.
  intros Hv w Ho. unfold drive, bind, enter, modify, get, lift.
  cbn [env].
  destruct (pw_effects_frame (effects (phase (env w) f))
              {| test_results := test_results w; disk := disk w;
                 trace := List.app (trace w) [f]; reads := reads w;
                 closes := closes w; env := env w |})
    as (w1 & E1 & Ho1 & T1).
  rewrite E1. exists w1. cbn [env trace] in *. rewrite Ho, Hv.
  repeat split; congruence.
Qed.

Lemma pw_covers_test_health_check (o : oracle) :
  health o = Ret 200%Z ->
  covers o test_health_check true [Fn.test_health_check].
Proof.
  intros Hh w Ho.
  unfold test_health_check, bind, enter, modify, try_except, get, lift.
  cbn [env]. rewrite Ho, Hh. cbn [Z.eqb Pos.eqb]. rewrite pw_log_pass_eq.
  eexists. repeat split.
Qed.

Lemma pw_covers_test_protected_routes (o : oracle) :
  covers o test_protected_routes tt [Fn.test_protected_routes].
Proof.
  intros w Ho.
  destruct (pw_test_protected_routes_returns w)
    as (w' & st & d & E & He & Ht & _).
  exists w'. repeat split; congruence.
Qed.

Lemma pw_covers_generate_report (o : oracle) :
  covers o generate_report tt [Fn.generate_report].
Proof.
  intros w Ho. destruct (pw_generate_report_eq w) as (w' & E & He & Ht & _).
  exists w'. repeat split; congruence.
Qed.

Lemma pw_covers_main (o : oracle) :
  cooperative o -> covers o main tt full_trace.
Proof.
  intros (Hh & Hl & Hc & Hres & (vi & Hvi & Ti) & (vn & Hvn & Tn)).
  assert (Hdrive : forall f, exists v, covers o (drive f) v [f]).
  { intros f. specialize (Hres f).
    destruct (result (phase o f)) as [v|e] eqn:E; [|discriminate].
    exists v. now apply pw_covers_drive. }
  destruct (Hdrive Fn.test_signup) as (v1 & H1).
  destruct (Hdrive Fn.test_dashboard) as (v3 & H3).
  destruct (Hdrive Fn.test_flashcard_creation) as (v5 & H5).
  destruct (Hdrive Fn.test_version_history) as (v6 & H6).
  destruct (Hdrive Fn.test_notes_list) as (v7 & H7).
  destruct (Hdrive Fn.test_search_page) as (v8 & H8).
  unfold main, test_signup, test_signin, test_dashboard, test_create_note,
    test_flashcard_creation, test_version_history, test_notes_list,
    test_search_page.
  then_pw ltac:(apply pw_covers_test_health_check, Hh).
  cbn [negb].
  then_pw ltac:(apply pw_covers_launch, Hl).
  eapply pw_covers_bind with (a := false)
    (t1 := [Fn.test_protected_routes; Fn.test_signup; Fn.test_signin;
            Fn.test_dashboard; Fn.test_create_note;
            Fn.test_flashcard_creation; Fn.test_version_history;
            Fn.test_notes_list; Fn.test_search_page]);
    [|cbn match; apply pw_covers_generate_report|reflexivity].
  eapply pw_covers_try_finally;
    [|apply pw_covers_browser_close, Hc|symmetry; apply app_nil_r].
  apply pw_covers_try_except.
  then_pw ltac:(apply pw_covers_test_protected_routes).
  then_pw ltac:(exact H1).
  then_pw ltac:(apply pw_covers_drive, Hvi).
  rewrite Ti. cbn [negb].
  then_pw ltac:(exact H3).
  then_pw ltac:(apply pw_covers_drive, Hvn).
  rewrite Tn.
  eapply pw_covers_bind with (a := tt)
    (t1 := [Fn.test_flashcard_creation; Fn.test_version_history]);
    [| |reflexivity].
  - then_pw ltac:(exact H5).
    eapply pw_covers_bind; [exact H6|apply pw_covers_ret|reflexivity].
  - then_pw ltac:(exact H7).
    eapply pw_covers_bind; [exact H8|apply pw_covers_ret|reflexivity].
Qed.

Lemma pw_cooperative_run (o : oracle) :
  cooperative o ->
  trace (fst (script (loaded o))) = full_trace
  /\ snd (script (loaded o)) = Exit 0
  /\ forall j, In j shared_journeys ->
               exercised j (fst (script (loaded o))) = true.
Proof.
  intros Hco.
  destruct (pw_covers_main o Hco (loaded o) eq_refl) as (w' & E & _ & T).
  unfold script. rewrite E. cbn [fst snd].
  assert (Ht : trace w' = full_trace) by (rewrite T; reflexivity).
  split; [exact Ht|]. split; [reflexivity|].
  intros j Hj. unfold exercised. rewrite Ht.
  cbn in Hj. intuition (subst; reflexivity).
Qed.

(** No function of this script exercises a responsive-layout journey. *)
Lemma pw_no_responsive_phase (w : World) :
  exercised ResponsiveLayout w = false.
Proof.
  unfold exercised. induction (trace w) as [|f t IH]; [reflexivity|].
  cbn [existsb]. rewrite IH. now destruct f.
Qed.

End PlaywrightFacts.

(* ===================================================================== *)
(** ** The three suites together *)
(* ===================================================================== *)

Module Suites.
Import Py.

(** C2 does not hold as the specification states it.  No suite writes all three formats: the report
    generator of the API suite writes no HTML file, and those of the two
    browser suites write no Markdown file. *)
Lemma reports_lack_a_format :
  emits HTML
    (ApiSuite.written ApiSpec.sample_world
       (fst (ApiSuite.generate_report ApiSpec.sample_world)))
  = false
  /\ emits Markdown
       (SeleniumSpec.written (Selenium.loaded SeleniumSpec.friendly)
          (fst (Selenium.generate_report
                  (Selenium.loaded SeleniumSpec.friendly))))
     = false
  /\ emits Markdown
       (PlaywrightSpec.written (Playwright.loaded PlaywrightSpec.friendly)
          (fst (Playwright.generate_report
                  (Playwright.loaded PlaywrightSpec.friendly))))
     = false.
Proof. repeat split; vm_compute; reflexivity. Qed.

(** C2, as the code has it.  Each report generator returns and writes exactly two
    files: the API suite a JSON report and a Markdown report, each browser
    suite a JSON report and an HTML report. *)
Theorem report_formats :
  (forall w,
      returns (snd (ApiSuite.generate_report w)) = true
      /\ formats (ApiSuite.written w (fst (ApiSuite.generate_report w)))
         = [Some JSON; Some Markdown])
  /\ (forall w,
         snd (Selenium.generate_report w) = Ret tt
         /\ formats
              (SeleniumSpec.written w (fst (Selenium.generate_report w)))
            = [Some JSON; Some HTML])
  /\ (forall w,
         snd (Playwright.generate_report w) = Ret tt
         /\ formats
              (PlaywrightSpec.written w (fst (Playwright.generate_report w)))
            = [Some JSON; Some HTML]).
Proof.
  split; [|split].
  - intros w. destruct (ApiFacts.api_report_formats w) as [E F].
    rewrite E. split; [reflexivity|exact F].
  - intros w.
    destruct (SeleniumFacts.sel_generate_report_eq w)
      as (w' & E & _ & _ & _ & F).
    rewrite E. cbn [fst snd]. split; [reflexivity|].
    unfold formats. rewrite <- (map_map fst format_of_path), F.
    reflexivity.
  - intros w.
    destruct (PlaywrightFacts.pw_generate_report_eq w)
      as (w' & E & _ & _ & _ & F).
    rewrite E. cbn [fst snd]. split; [reflexivity|].
    unfold formats. rewrite <- (map_map fst format_of_path), F.
    reflexivity.
Qed.

(** C3 does not hold as the specification states it.  With a browser in which everything works, the
    asynchronous suite runs to its end, enters each of its phases, and
    exercises no responsive-layout journey. *)
Lemma playwright_skips_responsive_layout :
  snd (Playwright.script (Playwright.loaded PlaywrightSpec.friendly))
  = Exit 0
  /\ Playwright.trace
       (fst (Playwright.script (Playwright.loaded PlaywrightSpec.friendly)))
     = PlaywrightSpec.full_trace
  /\ Playwright.exercised ResponsiveLayout
       (fst (Playwright.script (Playwright.loaded PlaywrightSpec.friendly)))
     = false.
Proof. repeat split; vm_compute; reflexivity. Qed.

(** C3, as the code has it.  When the browser lets every phase run to its end, the
    synchronous suite enters a phase for each of the eight journeys, and
    the asynchronous suite enters a phase for signup, signin, dashboard
    navigation, note creation, flashcard CRUD and version history.  The
    asynchronous suite has no function for the responsive-layout journey,
    in any run. *)
Theorem journeys_covered :
  (forall o,
      SeleniumSpec.cooperative o ->
      forall j,
        In j all_journeys ->
        Selenium.exercised j (fst (Selenium.script (Selenium.loaded o)))
        = true)
  /\ (forall o,
         PlaywrightSpec.cooperative o ->
         forall j,
           In j PlaywrightSpec.shared_journeys ->
           Playwright.exercised j
             (fst (Playwright.script (Playwright.loaded o)))
           = true)
  /\ (forall w, Playwright.exercised ResponsiveLayout w = false).
Proof.
  split; [|split].
  - intros o Hco j _.
    now destruct (SeleniumFacts.sel_cooperative_run o Hco) as (_ & _ & H).
  - intros o Hco j Hj.
    destruct (PlaywrightFacts.pw_cooperative_run o Hco) as (_ & _ & H).
    now apply H.
  - exact PlaywrightFacts.pw_no_responsive_phase.
Qed.

Lemma journeys_covered_witness :
  Selenium.exercised AccessibilityAudit
    (fst (Selenium.script (Selenium.loaded SeleniumSpec.friendly)))
  = true
  /\ Playwright.exercised VersionHistory
       (fst (Playwright.script (Playwright.loaded PlaywrightSpec.friendly)))
     = true.
Proof.
  split.
  - apply (proj1 journeys_covered SeleniumSpec.friendly).
    + repeat split; intros; try reflexivity.
      * now destruct f.
      * exists (PyBool true). split; reflexivity.
      * exists (PyStr "42"). split; reflexivity.
    + simpl. tauto.
  - apply (proj1 (proj2 journeys_covered) PlaywrightSpec.friendly).
    + repeat split; intros; try reflexivity.
      * now destruct f.
      * exists (PyBool true). split; reflexivity.
      * exists (PyStr "42"). split; reflexivity.
    + simpl. tauto.
Defined.

(** C4.  In both browser suites a [log_test] call with status PASS, FAIL
    or WARN returns, appends exactly one entry (with the name and status
    given) to the tests list, adds 1 to [total_tests] and to the one
    counter that matches the status, and leaves the other two counters
    alone.  So it keeps [passed + failed + warnings = total_tests =
    len(tests)]; this holds when the module is loaded, and it holds when
    the script ends, whatever the browser did. *)
Theorem log_test_tallies :
  (forall name st details evidence w,
      let w' :=
        fst (Selenium.log_test name (status_str st) details evidence w) in
      snd (Selenium.log_test name (status_str st) details evidence w)
      = Ret tt
      /\ (exists e,
             Selenium.tests (Selenium.test_results w')
             = List.app (Selenium.tests (Selenium.test_results w)) [e]
             /\ Selenium.Entry.name e = name
             /\ Selenium.Entry.status e = status_str st)
      /\ SeleniumSpec.counted st
           (Selenium.summary (Selenium.test_results w))
           (Selenium.summary (Selenium.test_results w'))
      /\ (SeleniumSpec.tally_ok (Selenium.test_results w) ->
          SeleniumSpec.tally_ok (Selenium.test_results w')))
  /\ (forall o,
         SeleniumSpec.tally_ok (Selenium.test_results (Selenium.loaded o))
         /\ SeleniumSpec.tally_ok
              (Selenium.test_results
                 (fst (Selenium.script (Selenium.loaded o)))))
  /\ (forall name st details evidence w,
         let w' :=
           fst (Playwright.log_test name (status_str st) details evidence
                  w) in
         snd (Playwright.log_test name (status_str st) details evidence w)
         = Ret tt
         /\ (exists e,
                Playwright.tests (Playwright.test_results w')
                = List.app (Playwright.tests (Playwright.test_results w))
                    [e]
                /\ Playwright.Entry.name e = name
                /\ Playwright.Entry.status e = status_str st)
         /\ PlaywrightSpec.counted st
              (Playwright.summary (Playwright.test_results w))
              (Playwright.summary (Playwright.test_results w'))
         /\ (PlaywrightSpec.tally_ok (Playwright.test_results w) ->
             PlaywrightSpec.tally_ok (Playwright.test_results w')))
  /\ (forall o,
         PlaywrightSpec.tally_ok
           (Playwright.test_results (Playwright.loaded o))
         /\ PlaywrightSpec.tally_ok
              (Playwright.test_results
                 (fst (Playwright.script (Playwright.loaded o))))).
Proof.
  split; [|split; [|split]].
  - intros name st details evidence w. cbv zeta.
    rewrite SeleniumFacts.sel_log_test_eq. cbn [fst snd].
    split; [reflexivity|]. split.
    + eexists. cbn. repeat split.
    + split.
      * unfold SeleniumSpec.counted. cbn. now destruct st.
      * apply SeleniumFacts.sel_tally_logged.
  - intros o. split.
    + apply SeleniumFacts.sel_tally_loaded.
    + apply SeleniumFacts.sel_tally_script.
  - intros name st details evidence w. cbv zeta.
    rewrite PlaywrightFacts.pw_log_test_eq. cbn [fst snd].
    split; [reflexivity|]. split.
    + eexists. cbn. repeat split.
    + split.
      * unfold PlaywrightSpec.counted. cbn. now destruct st.
      * apply PlaywrightFacts.pw_tally_logged.
  - intros o. split.
    + apply PlaywrightFacts.pw_tally_loaded.
    + apply PlaywrightFacts.pw_tally_script.
Qed.

Lemma log_test_tallies_witness :
  SeleniumSpec.tally_ok
    (Selenium.test_results
       (fst (Selenium.log_test "API Health Check" (status_str FAIL)
               "Status code: 500" ""
               (Selenium.loaded SeleniumSpec.friendly)))).
Proof.
  apply (proj1 log_test_tallies "API Health Check" FAIL "Status code: 500" ""
           (Selenium.loaded SeleniumSpec.friendly)).
  split; reflexivity.
Defined.




(** C8.  Both browser suites compute the verdict by the same rule, from
    [failed] and [warnings] alone: FAIL - NEEDS MAJOR FIXES exactly when
    [failed > 5]; WARN - NEEDS FIXES exactly when [1 <= failed <= 5];
    WARN - REVIEW WARNINGS exactly when [failed = 0] and [warnings > 10];
    PASS - READY TO DEPLOY exactly when [failed = 0] and
    [warnings <= 10].  [generate_report] stores that verdict in the
    summary. *)
Theorem verdict_rule (failed warnings : nat) :
  Selenium.final_verdict failed warnings
  = Playwright.final_verdict failed warnings
  /\ (Selenium.final_verdict failed warnings = "FAIL - NEEDS MAJOR FIXES"
      <-> 5 < failed)
  /\ (Selenium.final_verdict failed warnings = "WARN - NEEDS FIXES"
      <-> 1 <= failed <= 5)
  /\ (Selenium.final_verdict failed warnings = "WARN - REVIEW WARNINGS"
      <-> failed = 0 /\ 10 < warnings)
  /\ (Selenium.final_verdict failed warnings = "PASS - READY TO DEPLOY"
      <-> failed = 0 /\ warnings <= 10)
  /\ (forall w,
         Selenium.Summary.verdict
           (Selenium.summary
              (Selenium.test_results (fst (Selenium.generate_report w))))
         = Some (Selenium.final_verdict
                   (Selenium.Summary.failed
                      (Selenium.summary (Selenium.test_results w)))
                   (Selenium.Summary.warnings
                      (Selenium.summary (Selenium.test_results w)))))
  /\ (forall w,
         Playwright.Summary.verdict
           (Playwright.summary
              (Playwright.test_results (fst (Playwright.generate_report w))))
         = Some (Playwright.final_verdict
                   (Playwright.Summary.failed
                      (Playwright.summary (Playwright.test_results w)))
                   (Playwright.Summary.warnings
                      (Playwright.summary (Playwright.test_results w))))).
Proof.
  split; [reflexivity|].
  assert (Hcases := SeleniumFacts.sel_final_verdict_cases failed warnings).
  assert (Hiff : forall (v : string) (P : Prop),
             (Selenium.final_verdict failed warnings = v -> P) ->
             (P -> Selenium.final_verdict failed warnings = v) ->
             Selenium.final_verdict failed warnings = v <-> P)
    by (intros v P H1 H2; split; assumption).
  split; [|split; [|split; [|split; [|split]]]].
  1-4: destruct Hcases as [[H E]|[[H E]|[(H & H' & E)|(H & H' & E)]]];
    apply Hiff; rewrite E; intros Hc;
    first [discriminate Hc | reflexivity | lia].
  - intros w. reflexivity.
  - intros w. reflexivity.
Qed.

End Suites.

(* ===================================================================== *)
(** ** More facts about the prelude *)
(* ===================================================================== *)

Module StringFacts.
Import Py.

Lemma length_append (s t : string) :
  String.length (s ++ t) = String.length s + String.length t.
Proof. induction s as [|c s IH]; simpl; [reflexivity|now rewrite IH]. Qed.

Lemma append_inv_head (a x y : string) : a ++ x = a ++ y -> x = y.
Proof.
  induction a as [|c a IH]; simpl; intros H; [exact H|].
  injection H as H. now apply IH.
Qed.

(** Two strings that end in tails of the same length agree on what stands
    before the tails. *)
Lemma append_inv_tail (x y s t : string) :
  x ++ s = y ++ t -> String.length s = String.length t -> x = y /\ s = t.
Proof.
  revert y. induction x as [|a x IH]; intros [|b y] H L; simpl in H.
  - now split.
  - exfalso. rewrite H in L. simpl in L. rewrite length_append in L. lia.
  - exfalso. rewrite <- H in L. simpl in L. rewrite length_append in L. lia.
  - injection H as -> H. destruct (IH y H L) as [-> ->]. now split.
Qed.

Lemma length_take (n : nat) (s : string) : String.length (take n s) <= n.
Proof.
  unfold take. revert s. induction n as [|n IH]; intros [|c s]; simpl;
    try lia.
  specialize (IH s). lia.
Qed.

Lemma take_short (n : nat) (s : string) :
  String.length s <= n -> take n s = s.
Proof.
  unfold take. revert s. induction n as [|n IH]; intros [|c s]; simpl;
    intros H; try reflexivity; try lia.
  f_equal. apply IH. lia.
Qed.

Lemma prefix_take (n : nat) (s : string) : prefix (take n s) s = true.
Proof.
  unfold take. revert s. induction n as [|n IH]; intros [|c s]; simpl;
    try reflexivity.
  destruct (ascii_dec c c) as [_|N]; [apply IH|now destruct N].
Qed.

Lemma take_take (n m : nat) (s : string) :
  n <= m -> take n (take m s) = take n s.
Proof.
  unfold take. revert m s. induction n as [|n IH]; intros [|m] [|c s] H;
    simpl; try reflexivity; try lia.
  f_equal. apply IH. lia.
Qed.

(** *** Decimal numerals *)

Lemma uint_of_zeros (k : nat) (s : string) :
  NilEmpty.uint_of_string (replicate k "0"%char ++ s)
  = option_map (Nat.iter k Decimal.D0) (NilEmpty.uint_of_string s).
Proof.
  induction k as [|k IH]; simpl.
  - now destruct (NilEmpty.uint_of_string s).
  - rewrite IH. now destruct (NilEmpty.uint_of_string s).
Qed.

Lemma of_uint_zeros (k : nat) (d : Decimal.uint) :
  Nat.of_uint (Nat.iter k Decimal.D0 d) = Nat.of_uint d.
Proof.
  induction k as [|k IH]; simpl; [reflexivity|].
  exact IH.
Qed.

Lemma str_of_nat_digits (n : nat) :
  exists c s, str_of_nat n = String c s
              /\ NilEmpty.uint_of_string (String c s) = Some (Nat.to_uint n).
Proof.
  unfold str_of_nat.
  assert (Hnn : Nat.to_uint n <> Decimal.Nil).
  { intros E. pose proof (Unsigned.of_to n) as H. rewrite E in H.
    pose proof (Unsigned.to_uint_alt n) as A. rewrite E in A.
    destruct n as [|n]; [discriminate E|].
    simpl in H. discriminate H. }
  pose proof (NilZero.usu _ Hnn) as U.
  destruct (NilZero.string_of_uint (Nat.to_uint n)) as [|c s] eqn:E.
  - discriminate U.
  - now exists c, s.
Qed.

(** Reading a zero-padded numeral back gives the number. *)
Lemma parse_zfill (width n : nat) :
  ApiLedger.parse_nat (zfill width n) = Some n.
Proof.
  unfold ApiLedger.parse_nat, zfill.
  destruct (str_of_nat_digits n) as (c & s & E & U).
  rewrite E.
  set (k := width - String.length (String c s)).
  assert (H : NilZero.uint_of_string (replicate k "0"%char ++ String c s)
              = NilEmpty.uint_of_string
                  (replicate k "0"%char ++ String c s)).
  { now destruct k. }
  rewrite H, uint_of_zeros, U. simpl.
  now rewrite of_uint_zeros, Unsigned.of_to.
Qed.

Lemma zfill_inj (width n m : nat) : zfill width n = zfill width m -> n = m.
Proof.
  intros E. pose proof (parse_zfill width n) as Hn.
  rewrite E, parse_zfill in Hn. now injection Hn.
Qed.

End StringFacts.

(* ===================================================================== *)
(** ** The HTTP API suite: bookkeeping *)
(* ===================================================================== *)

Module ApiLedgerFacts.
Import Py ApiSuite ApiSpec ApiLedger PyFacts ApiFacts StringFacts.

Lemma bind_assoc {W A B C : Type} (m : M W A) (k : A -> M W B)
  (h : B -> M W C) (w : W) :
  bind (bind m k) h w = bind m (fun a => bind (k a) h) w.
Proof.
  unfold bind. destruct (m w) as [w1 [a|e]]; reflexivity.
Qed.

(** An invariant of [world_after] holds after any run. *)
Lemma fold_world_after (P : World -> Prop) (cs : list call) (w : World) :
  (forall c w, In c cs -> P w -> P (world_after c w)) ->
  P w -> P (fold_left (fun w c => world_after c w) cs w).
Proof.
  revert w. induction cs as [|c cs IH]; intros w Hstep Hw; simpl.
  - exact Hw.
  - apply IH.
    + intros c' w' Hin. apply Hstep. now right.
    + apply Hstep; [now left|exact Hw].
Qed.

Lemma passes_app (rs : list TestResult.t) (r : TestResult.t) :
  passes (List.app rs [r])
  = if TestResult.passed r then S (passes rs) else passes rs.
Proof.
  unfold passes. rewrite filter_app, length_app. simpl.
  destruct (TestResult.passed r); simpl; lia.
Qed.

Lemma failures_app (rs : list TestResult.t) (r : TestResult.t) :
  failures (List.app rs [r])
  = if TestResult.passed r then failures rs else S (failures rs).
Proof.
  unfold failures. rewrite filter_app, length_app. simpl.
  destruct (TestResult.passed r); simpl; lia.
Qed.

Lemma balanced_step (c : call) (w : World) :
  balanced (self w) -> balanced (self (world_after c w)).
Proof.
  intros (Hp & Hf & Hn). unfold balanced. cbn [world_after self pass_count
    fail_count results test_num].
  rewrite passes_app, failures_app, length_app. cbn [List.length].
  destruct (TestResult.passed (result_of c w)); repeat split; lia.
Qed.

Lemma balanced_total (s : TestSuite) :
  balanced s -> pass_count s + fail_count s = test_num s.
Proof.
  intros (Hp & Hf & Hn). rewrite Hp, Hf, Hn. apply filter_length.
Qed.

Lemma balanced_run (cs : list call) (w : World) :
  balanced (self w) ->
  balanced (self (fold_left (fun w c => world_after c w) cs w)).
Proof.
  intros H.
  apply (fold_world_after (fun w => balanced (self w))); [|exact H].
  intros c w' _. apply balanced_step.
Qed.

(** *** The sampling loop of the performance test *)

Lemma filter_seq_shift (p : nat -> bool) (a n : nat) :
  List.length (filter p (seq (S a) n))
  = List.length (filter (fun k => p (S k)) (seq a n)).
Proof.
  revert a. induction n as [|n IH]; intros a; simpl; [reflexivity|].
  destruct (p (S a)); simpl; now rewrite IH.
Qed.

Lemma sample_loop (xs : list nat) (acc : list Q) (w : World) :
  exists w' times,
    for_fold xs acc
      (fun i times =>
         bind time_time (fun req_start =>
           try_except
             (bind (requests_get
                      (BASE_URL ++ "/api/search?q=test" ++ str_of_nat i))
                (fun _ =>
                   bind time_time (fun t =>
                     ret (List.app times [((t - req_start) * 1000)%Q]))))
             (fun _ => Some (ret times)))) w
    = (w', Ret times)
    /\ self w' = self w /\ disk w' = disk w /\ net w' = net w
    /\ clock w' = clock w
    /\ sent w'
       = List.app (sent w)
           (map (fun i => ("GET", BASE_URL ++ "/api/search?q=test"
                                    ++ str_of_nat i)) xs)
    /\ List.length times
       = List.length acc + List.length (answered w (List.length xs)).
Proof.
  revert acc w. induction xs as [|x xs IH]; intros acc w.
  - exists w, acc. cbn. rewrite app_nil_r.
    repeat split; try reflexivity. lia.
  - cbn [for_fold]. unfold bind at 1.
    unfold bind at 1, time_time at 1, try_except at 1.
    unfold bind at 1, requests_get at 1, request.
    cbn -[String.append str_of_nat BASE_URL for_fold answered].
    assert (Hshift : forall (w1 : World),
               net w1 = net w ->
               List.length (sent w1) = S (List.length (sent w)) ->
               List.length (answered w (S (List.length xs)))
               = (if responded (net w (List.length (sent w))) then 1 else 0)
                 + List.length (answered w1 (List.length xs))).
    { intros w1 Hnet Hlen. unfold answered. cbn [seq filter].
      rewrite Nat.add_0_r.
      assert (E : List.length
                    (filter (fun k => responded
                                        (net w (List.length (sent w) + k)))
                       (seq 1 (List.length xs)))
                  = List.length
                      (filter (fun k => responded
                                          (net w1 (List.length (sent w1) + k)))
                         (seq 0 (List.length xs)))).
      { rewrite filter_seq_shift. f_equal. apply filter_ext. intros k.
        rewrite Hnet, Hlen. f_equal. f_equal. lia. }
      destruct (responded (net w (List.length (sent w)))); cbn [List.length];
        rewrite E; reflexivity. }
    destruct (net w (List.length (sent w))) as [r|msg] eqn:Enet;
      cbn -[String.append str_of_nat BASE_URL for_fold answered].
    + match goal with
      | |- exists w' times, for_fold xs ?a _ ?w1 = _ /\ _ =>
          destruct (IH a w1) as (w' & times & E & Hs & Hd & Hn & Hc & Hsent
                                 & Hlen);
          pose proof (Hshift w1 eq_refl) as Hsh
      end.
      exists w', times. split; [exact E|].
      cbn [self disk net clock sent] in *.
      repeat split; try assumption.
      * rewrite Hsent, <- app_assoc. reflexivity.
      * rewrite Hlen, Hsh, length_app.
        -- cbn. lia.
        -- rewrite length_app. cbn. lia.
    + match goal with
      | |- exists w' times, for_fold xs ?a _ ?w1 = _ /\ _ =>
          destruct (IH a w1) as (w' & times & E & Hs & Hd & Hn & Hc & Hsent
                                 & Hlen);
          pose proof (Hshift w1 eq_refl) as Hsh
      end.
      exists w', times. split; [exact E|].
      cbn [self disk net clock sent] in *.
      repeat split; try assumption.
      * rewrite Hsent, <- app_assoc. reflexivity.
      * rewrite Hlen, Hsh.
        -- cbn. lia.
        -- rewrite length_app. cbn. lia.
Qed.

Lemma sample_requests_closed (w : World) :
  exists w' times,
    sample_requests w = (w', Ret times)
    /\ self w' = self w /\ disk w' = disk w /\ net w' = net w
    /\ clock w' = clock w
    /\ sent w' = List.app (sent w) sample_urls
    /\ List.length times = List.length (answered w 10).
Proof.
  destruct (sample_loop (seq 0 10) [] w)
    as (w' & times & E & Hs & Hd & Hn & Hc & Hsent & Hlen).
  exists w', times. repeat split; assumption.
Qed.

End ApiLedgerFacts.
